(** * ts-mini-apps: the BackButton, MainButton and WebApp wrappers

    A shallow embedding of [src/components/BackButton.ts],
    [src/components/MainButton.ts], [src/components/WebApp.ts] and
    [src/errors/index.ts], followed by the properties the specification
    states about them.

    The wrappers are dynamically checked glue over an object the host
    page injects, so the embedding has three layers:
    - [JS]: the values a caller can pass at run time, [typeof], the
      string conversion, and the little regular-expression matcher behind
      [RegExp.prototype.test];
    - [Host]: the injected [Telegram] object tree;
    - one module per wrapper class, written in a state-and-exception
      monad over the host object the instance holds. *)

From Stdlib Require Import List String Ascii Bool NArith ZArith Lia.
From Stdlib Require Import DecimalString.
Import ListNotations.

Set Implicit Arguments.

(* ================================================================== *)
(** * The JavaScript fragment the wrappers rely on *)
(* ================================================================== *)

Module JS.

(** A string is a sequence of UTF-16 code units. *)
Definition code_unit := N.
Definition jsstring := list code_unit.

(** A literal written in ASCII. *)
Definition js (s : string) : jsstring :=
  map N_of_ascii (list_ascii_of_string s).

(** Run-time values: the data values of the language.  Numbers are the
    integer-valued ones below 10^21, which print in plain decimal; arrays
    and plain objects are the two object shapes whose string conversion
    is fixed by the language itself.  Symbols, functions and objects
    that define a conversion of their own are left out: converting one
    to a string can run arbitrary code or throw. *)
#[warnings="-register-all"]
Inductive value : Type :=
| VUndefined
| VNull
| VBool (b : bool)
| VNumber (z : Z)
| VString (s : jsstring)
| VArray (elems : list value)
| VObject.

(** [typeof v] *)
Definition typeof (v : value) : string :=
  match v with
  | VUndefined => "undefined"
  | VNull => "object"
  | VBool _ => "boolean"
  | VNumber _ => "number"
  | VString _ => "string"
  | VArray _ => "object"
  | VObject => "object"
  end.

(** [v !== undefined] *)
Definition is_defined (v : value) : bool :=
  match v with
  | VUndefined => false
  | _ => true
  end.

(** [Array.prototype.join] over already converted elements. *)
Fixpoint join (parts : list jsstring) : jsstring :=
  match parts with
  | [] => []
  | [p] => p
  | p :: rest => p ++ js "," ++ join rest
  end.

(** The abstract operation ToString.  An array converts through
    [join], in which [undefined] and [null] elements print as the empty
    string; a plain object prints as [[object Object]]. *)
Fixpoint ToString (v : value) : jsstring :=
  match v with
  | VUndefined => js "undefined"
  | VNull => js "null"
  | VBool true => js "true"
  | VBool false => js "false"
  | VNumber z => js (NilZero.string_of_int (Z.to_int z))
  | VString s => s
  | VArray elems =>
      join (map (fun e => match e with
                          | VUndefined | VNull => []
                          | _ => ToString e
                          end) elems)
  | VObject => js "[object Object]"
  end.

(** ** Regular expressions

    The syntax a pattern literal of the sources uses: the two
    assertions, a literal character, a class of ranges, concatenation
    and the counted repetition [{n}]. *)
Inductive regex : Type :=
| Bol                                  (* ^ *)
| Eol                                  (* $ *)
| Chr (c : code_unit)
| Cls (ranges : list (code_unit * code_unit))
| Cat (r1 r2 : regex)
| Rep (n : nat) (r : regex).

Definition in_range (c : code_unit) (r : code_unit * code_unit) : bool :=
  (fst r <=? c)%N && (c <=? snd r)%N.

(** A backtracking matcher in continuation-passing style.  [at_start]
    says whether the current position is index 0; no flag is set on
    the pattern, so [^] holds at index 0 only and [$] at the end of the
    input only. *)
Fixpoint matches (r : regex) (at_start : bool) (s : jsstring)
         (k : bool -> jsstring -> bool) {struct r} : bool :=
  match r with
  | Bol => at_start && k at_start s
  | Eol => match s with
           | [] => k at_start s
           | _ :: _ => false
           end
  | Chr c => match s with
             | x :: s' => (x =? c)%N && k false s'
             | [] => false
             end
  | Cls ranges => match s with
                  | x :: s' => existsb (in_range x) ranges && k false s'
                  | [] => false
                  end
  | Cat r1 r2 => matches r1 at_start s (fun a' s' => matches r2 a' s' k)
  | Rep n r1 =>
      (fix rep (n : nat) (a : bool) (s : jsstring) : bool :=
         match n with
         | O => k a s
         | S n' => matches r1 a s (fun a' s' => rep n' a' s')
         end) n at_start s
  end.

(** The search for a start position: index 0 first, then each later
    index up to the end of the input. *)
Fixpoint search (r : regex) (at_start : bool) (s : jsstring) : bool :=
  matches r at_start s (fun _ _ => true)
  || match s with
     | [] => false
     | _ :: s' => search r false s'
     end.

(** [r.test(v)]: the argument is converted to a string first. *)
Definition test (r : regex) (v : value) : bool :=
  search r true (ToString v).

Definition code (a : ascii) : code_unit := N_of_ascii a.

(** The literal [/^#[0-9A-Fa-f]{6}$/]. *)
Definition hex_color_pattern : regex :=
  Cat Bol
    (Cat (Chr (code "#"))
       (Cat (Rep 6 (Cls [(code "0", code "9");
                         (code "A", code "F");
                         (code "a", code "f")]))
          Eol)).

End JS.

(* ================================================================== *)
(** * [src/errors/index.ts] and the effects of a method *)
(* ================================================================== *)

Module Errors.

(** What a [throw] of the sources carries: the built-in [Error] and the
    two classes of [errors/index.ts] that extend it. *)
Inductive exn : Type :=
| Error (message : string)
| TypeError (message : string)
| ValueError (message : string).

(** The [name] property the class constructors set. *)
Definition name (e : exn) : string :=
  match e with
  | Error _ => "Error"
  | TypeError _ => "TypeError"
  | ValueError _ => "ValueError"
  end.

End Errors.

Module Eff.
Import Errors.

(** A method body: it runs on a state, ends normally with a result or
    abruptly with what it threw, and leaves a state behind either
    way. *)
Definition M (St A : Type) : Type := St -> (exn + A) * St.

Definition ret {St A} (a : A) : M St A := fun s => (inr a, s).

Definition throw {St A} (e : exn) : M St A := fun s => (inl e, s).

Definition bind {St A B} (m : M St A) (f : A -> M St B) : M St B :=
  fun s =>
    match m s with
    | (inl e, s') => (inl e, s')
    | (inr a, s') => f a s'
    end.

Definition get {St} : M St St := fun s => (inr s, s).

Definition modify {St} (f : St -> St) : M St unit := fun s => (inr tt, f s).

(** [if (c) throw e;] *)
Definition throw_if {St} (c : bool) (e : exn) : M St unit :=
  if c then throw e else ret tt.

(** The state a method leaves behind. *)
Definition state_after {St A} (m : M St A) (s : St) : St := snd (m s).

(** What a method ended with. *)
Definition outcome {St A} (m : M St A) (s : St) : exn + A := fst (m s).

End Eff.

Declare Scope eff_scope.
Delimit Scope eff_scope with eff.
Notation "x <- m ;; k" := (Eff.bind m (fun x => k))
  (at level 61, m at next level, right associativity) : eff_scope.
Notation "m ;; k" := (Eff.bind m (fun _ => k))
  (at level 61, right associativity) : eff_scope.
Notation "a !== b" := (negb (String.eqb a b)) (at level 70) : eff_scope.

(* ================================================================== *)
(** * Function values and the injected host object *)
(* ================================================================== *)

Module Fn.
Import Errors.

(** The functions that reach a button as click callbacks.  A function
    value has an identity, the number that stands for its reference.
    - [Client id result] is a function of the caller; as far as a button
      can tell, a call of it either returns ([None]) or throws
      ([Some e]).
    - [HandleClick id callback] is the arrow function [handleClick]
      that [onceClick] creates around [callback]; every evaluation of
      the arrow expression creates a new function, hence the [id]. *)
Inductive t : Type :=
| Client (id : nat) (result : option exn)
| HandleClick (id : nat) (callback : t).

(** Reference equality of two function values. *)
Definition same (f g : t) : bool :=
  match f, g with
  | Client i _, Client j _ => Nat.eqb i j
  | HandleClick i _, HandleClick j _ => Nat.eqb i j
  | _, _ => false
  end.

End Fn.

(** [interface MainButtonParams] of [MainButton.ts].  Every field is
    optional: an absent field reads as [undefined].  The declared field
    types are only checked at compile time, so a field holds any value. *)
Record MainButtonParams : Type := {
  text : JS.value;
  color : JS.value;
  text_color : JS.value;
  is_active : JS.value;
  is_visible : JS.value
}.

Module Host.
Import JS.

(** A method call a host object received, with its argument. *)
Inductive call : Type :=
| call_show
| call_hide
| call_setText (value : JS.value)
| call_disable
| call_enable
| call_showProgress (leaveActive : JS.value)
| call_hideProgress
| call_setParams (params : MainButtonParams).

Module Events.

(** Modelled from the spec: the host's event mechanism, which is not
    part of this repository.  It keeps the registered click callbacks in
    registration order. *)
Definition on (f : Fn.t) (handlers : list Fn.t) : list Fn.t :=
  handlers ++ [f].

(** Modelled from the spec: removal is by identity, the reference that
    was passed to [onClick]. *)
Definition off (f : Fn.t) (handlers : list Fn.t) : list Fn.t :=
  filter (fun g => negb (Fn.same f g)) handlers.

End Events.

Module BackButton.

(** [Telegram.WebApp.BackButton]: its property, the callbacks
    registered for its click event, and the [show]/[hide] calls it
    received, oldest first. *)
Record t : Type := {
  isVisible : value;
  handlers : list Fn.t;
  calls : list call
}.

Definition set_isVisible (v : value) (h : t) : t :=
  {| isVisible := v; handlers := handlers h; calls := calls h |}.

Definition set_handlers (hs : list Fn.t) (h : t) : t :=
  {| isVisible := isVisible h; handlers := hs; calls := calls h |}.

Definition received (c : call) (h : t) : t :=
  {| isVisible := isVisible h; handlers := handlers h;
     calls := calls h ++ [c] |}.

End BackButton.

Module MainButton.

(** [Telegram.WebApp.MainButton]. *)
Record t : Type := {
  text : value;
  color : value;
  textColor : value;
  isVisible : value;
  isActive : value;
  isProgressVisible : value;
  handlers : list Fn.t;
  calls : list call
}.

Definition set_text (v : value) (h : t) : t :=
  {| text := v; color := color h; textColor := textColor h;
     isVisible := isVisible h; isActive := isActive h;
     isProgressVisible := isProgressVisible h;
     handlers := handlers h; calls := calls h |}.

Definition set_color (v : value) (h : t) : t :=
  {| text := text h; color := v; textColor := textColor h;
     isVisible := isVisible h; isActive := isActive h;
     isProgressVisible := isProgressVisible h;
     handlers := handlers h; calls := calls h |}.

Definition set_textColor (v : value) (h : t) : t :=
  {| text := text h; color := color h; textColor := v;
     isVisible := isVisible h; isActive := isActive h;
     isProgressVisible := isProgressVisible h;
     handlers := handlers h; calls := calls h |}.

Definition set_isVisible (v : value) (h : t) : t :=
  {| text := text h; color := color h; textColor := textColor h;
     isVisible := v; isActive := isActive h;
     isProgressVisible := isProgressVisible h;
     handlers := handlers h; calls := calls h |}.

Definition set_isActive (v : value) (h : t) : t :=
  {| text := text h; color := color h; textColor := textColor h;
     isVisible := isVisible h; isActive := v;
     isProgressVisible := isProgressVisible h;
     handlers := handlers h; calls := calls h |}.

Definition set_isProgressVisible (v : value) (h : t) : t :=
  {| text := text h; color := color h; textColor := textColor h;
     isVisible := isVisible h; isActive := isActive h;
     isProgressVisible := v;
     handlers := handlers h; calls := calls h |}.

Definition set_handlers (hs : list Fn.t) (h : t) : t :=
  {| text := text h; color := color h; textColor := textColor h;
     isVisible := isVisible h; isActive := isActive h;
     isProgressVisible := isProgressVisible h;
     handlers := hs; calls := calls h |}.

Definition received (c : call) (h : t) : t :=
  {| text := text h; color := color h; textColor := textColor h;
     isVisible := isVisible h; isActive := isActive h;
     isProgressVisible := isProgressVisible h;
     handlers := handlers h; calls := calls h ++ [c] |}.

End MainButton.

Module WebApp.

(** [Telegram.WebApp].  The two button sub-objects may be missing:
    [typeof Telegram.WebApp.BackButton === 'undefined']. *)
Record t : Type := {
  initData : jsstring;
  version : value;
  initDataUnsafe : value;
  platform : value;
  colorScheme : value;
  themeParams : value;
  isExpanded : value;
  viewportHeight : value;
  viewportStableHeight : value;
  backgroundColor : value;
  headerColor : value;
  isClosingConfirmationEnabled : value;
  isVerticalSwipesEnabled : value;
  BackButton : option BackButton.t;
  MainButton : option MainButton.t
}.

Definition set_backgroundColor (v : value) (h : t) : t :=
  {| initData := initData h; version := version h;
     initDataUnsafe := initDataUnsafe h; platform := platform h;
     colorScheme := colorScheme h; themeParams := themeParams h;
     isExpanded := isExpanded h; viewportHeight := viewportHeight h;
     viewportStableHeight := viewportStableHeight h;
     backgroundColor := v; headerColor := headerColor h;
     isClosingConfirmationEnabled := isClosingConfirmationEnabled h;
     isVerticalSwipesEnabled := isVerticalSwipesEnabled h;
     BackButton := BackButton h; MainButton := MainButton h |}.

Definition set_headerColor (v : value) (h : t) : t :=
  {| initData := initData h; version := version h;
     initDataUnsafe := initDataUnsafe h; platform := platform h;
     colorScheme := colorScheme h; themeParams := themeParams h;
     isExpanded := isExpanded h; viewportHeight := viewportHeight h;
     viewportStableHeight := viewportStableHeight h;
     backgroundColor := backgroundColor h; headerColor := v;
     isClosingConfirmationEnabled := isClosingConfirmationEnabled h;
     isVerticalSwipesEnabled := isVerticalSwipesEnabled h;
     BackButton := BackButton h; MainButton := MainButton h |}.

Definition set_isClosingConfirmationEnabled (v : value) (h : t) : t :=
  {| initData := initData h; version := version h;
     initDataUnsafe := initDataUnsafe h; platform := platform h;
     colorScheme := colorScheme h; themeParams := themeParams h;
     isExpanded := isExpanded h; viewportHeight := viewportHeight h;
     viewportStableHeight := viewportStableHeight h;
     backgroundColor := backgroundColor h; headerColor := headerColor h;
     isClosingConfirmationEnabled := v;
     isVerticalSwipesEnabled := isVerticalSwipesEnabled h;
     BackButton := BackButton h; MainButton := MainButton h |}.

Definition set_isVerticalSwipesEnabled (v : value) (h : t) : t :=
  {| initData := initData h; version := version h;
     initDataUnsafe := initDataUnsafe h; platform := platform h;
     colorScheme := colorScheme h; themeParams := themeParams h;
     isExpanded := isExpanded h; viewportHeight := viewportHeight h;
     viewportStableHeight := viewportStableHeight h;
     backgroundColor := backgroundColor h; headerColor := headerColor h;
     isClosingConfirmationEnabled := isClosingConfirmationEnabled h;
     isVerticalSwipesEnabled := v;
     BackButton := BackButton h; MainButton := MainButton h |}.

End WebApp.

(** The global [Telegram]; [WebApp] may be missing. *)
Record Telegram : Type := {
  WebApp : option WebApp.t
}.

(** The global scope of the page: [typeof Telegram === 'undefined']
    is [None].  A level is undefined or an object here; a level that is
    [null] is not modelled. *)
Definition global : Type := option Telegram.

End Host.

(** The part of the run-time state that is not a field of a class: the
    instance [this], the number of [handleClick] functions created so
    far (it names the next one) and the identities of the client
    functions called so far, oldest first. *)
Module Runtime.

Record t (I : Type) : Type := {
  this : I;
  closures : nat;
  invoked : list nat
}.

Arguments this {I} _.
Arguments closures {I} _.
Arguments invoked {I} _.

(** A method of the class run in the whole state. *)
Definition lift {I A} (m : Eff.M I A) : Eff.M (t I) A :=
  fun w =>
    match m (this w) with
    | (r, i') => (r, {| this := i'; closures := closures w;
                        invoked := invoked w |})
    end.

(** The arrow expression of [onceClick] is evaluated. *)
Definition new_handleClick {I} (callback : Fn.t) : Eff.M (t I) Fn.t :=
  fun w =>
    (inr (Fn.HandleClick (closures w) callback),
     {| this := this w; closures := S (closures w);
        invoked := invoked w |}).

(** A client function is called. *)
Definition call_client {I} (id : nat) (result : option Errors.exn)
  : Eff.M (t I) unit :=
  fun w =>
    let w' := {| this := this w; closures := closures w;
                 invoked := invoked w ++ [id] |} in
    match result with
    | None => (inr tt, w')
    | Some e => (inl e, w')
    end.

End Runtime.

(* ================================================================== *)
(** * [class BackButton] *)
(* ================================================================== *)

Module BackButton.
Import JS Errors Eff.
Local Open Scope eff_scope.
Local Open Scope string_scope.

(** An instance.  [_backButton] is a reference to the host's object:
    the field stands for the live object itself. *)
Record t : Type := {
  _backButton : Host.BackButton.t
}.

Definition on_backButton (f : Host.BackButton.t -> Host.BackButton.t)
  : M t unit :=
  modify (fun this => {| _backButton := f (_backButton this) |}).

(** [constructor()]: an instance or the error thrown. *)
Definition constructor (Telegram : Host.global) : exn + t :=
  match Telegram with
  | None => inl (Error "LTelegram: Telegram is not defined.")
  | Some Telegram =>
      match Host.WebApp Telegram with
      | None => inl (Error "LTelegram: Telegram.WebApp is not defined.")
      | Some WebApp =>
          match Host.WebApp.BackButton WebApp with
          | None =>
              inl (Error "LTelegram: Telegram.WebApp.BackButton is not defined.")
          | Some BackButton => inr {| _backButton := BackButton |}
          end
      end
  end.

Definition get_isVisible : M t value :=
  this <- get ;; ret (Host.BackButton.isVisible (_backButton this)).

Definition set_isVisible (value : value) : M t unit :=
  throw_if (typeof value !== "boolean")
           (TypeError "LTelegram: value must be a boolean") ;;
  on_backButton (Host.BackButton.set_isVisible value).

Definition show : M t unit :=
  on_backButton (Host.BackButton.received Host.call_show).

Definition hide : M t unit :=
  on_backButton (Host.BackButton.received Host.call_hide).

Definition onClick (callback : Fn.t) : M t unit :=
  on_backButton (fun h =>
    Host.BackButton.set_handlers
      (Host.Events.on callback (Host.BackButton.handlers h)) h).

Definition offClick (callback : Fn.t) : M t unit :=
  on_backButton (fun h =>
    Host.BackButton.set_handlers
      (Host.Events.off callback (Host.BackButton.handlers h)) h).

Definition onceClick (callback : Fn.t) : M (Runtime.t t) unit :=
  handleClick <- Runtime.new_handleClick callback ;;
  Runtime.lift (onClick handleClick).

(** A call [f()].  The second case is the body of [handleClick]:
    [callback(); this.offClick(handleClick);]. *)
Fixpoint call (f : Fn.t) : M (Runtime.t t) unit :=
  match f with
  | Fn.Client id result => Runtime.call_client id result
  | Fn.HandleClick _ callback =>
      call callback ;;
      Runtime.lift (offClick f)
  end.

(** Modelled from the spec: the click event, which the host raises and
    this repository does not contain.  The host calls the callbacks
    that are registered when the event arrives, in registration order;
    a callback that throws ends only its own call.  The specification
    gives no rule for a callback that is removed while the click is
    handled; a host may as well walk its live list, and the properties
    below that involve a click hold for either reading. *)
Definition click (w : Runtime.t t) : Runtime.t t :=
  fold_left (fun w f => state_after (call f) w)
            (Host.BackButton.handlers (_backButton (Runtime.this w))) w.

End BackButton.

(* ================================================================== *)
(** * [class MainButton] *)
(* ================================================================== *)

Module MainButton.
Import JS Errors Eff.
Local Open Scope eff_scope.
Local Open Scope string_scope.

(** An instance; [_mainButton] stands for the host's live object. *)
Record t : Type := {
  _mainButton : Host.MainButton.t
}.

Definition on_mainButton (f : Host.MainButton.t -> Host.MainButton.t)
  : M t unit :=
  modify (fun this => {| _mainButton := f (_mainButton this) |}).

Definition isValidHexColor (value : value) : bool :=
  test hex_color_pattern value.

Definition get_text : M t value :=
  this <- get ;; ret (Host.MainButton.text (_mainButton this)).

Definition set_text (value : value) : M t unit :=
  throw_if (typeof value !== "string")
           (TypeError "LTelegram: value must be a string") ;;
  on_mainButton (Host.MainButton.set_text value).

Definition get_color : M t value :=
  this <- get ;; ret (Host.MainButton.color (_mainButton this)).

Definition set_color (value : value) : M t unit :=
  throw_if (negb (isValidHexColor value))
           (ValueError "LTelegram: Invalid hex color value") ;;
  on_mainButton (Host.MainButton.set_color value).

Definition get_textColor : M t value :=
  this <- get ;; ret (Host.MainButton.textColor (_mainButton this)).

Definition set_textColor (value : value) : M t unit :=
  throw_if (negb (isValidHexColor value))
           (ValueError "LTelegram: Invalid hex color value") ;;
  on_mainButton (Host.MainButton.set_textColor value).

Definition get_isVisible : M t value :=
  this <- get ;; ret (Host.MainButton.isVisible (_mainButton this)).

Definition set_isVisible (value : value) : M t unit :=
  throw_if (typeof value !== "boolean")
           (TypeError "LTelegram: value must be a boolean") ;;
  on_mainButton (Host.MainButton.set_isVisible value).

Definition get_isActive : M t value :=
  this <- get ;; ret (Host.MainButton.isActive (_mainButton this)).

Definition set_isActive (value : value) : M t unit :=
  throw_if (typeof value !== "boolean")
           (TypeError "LTelegram: value must be a boolean") ;;
  on_mainButton (Host.MainButton.set_isActive value).

Definition get_isProgressVisible : M t value :=
  this <- get ;; ret (Host.MainButton.isProgressVisible (_mainButton this)).

Definition set_isProgressVisible (value : value) : M t unit :=
  throw_if (typeof value !== "boolean")
           (TypeError "LTelegram: value must be a boolean") ;;
  on_mainButton (Host.MainButton.set_isProgressVisible value).

(** [constructor()]: the three checks, the reference, then
    [this.isVisible = true] through the setter above. *)
Definition constructor (Telegram : Host.global) : exn + t :=
  match Telegram with
  | None => inl (Error "LTelegram: Telegram is not defined.")
  | Some Telegram =>
      match Host.WebApp Telegram with
      | None => inl (Error "LTelegram: Telegram.WebApp is not defined.")
      | Some WebApp =>
          match Host.WebApp.MainButton WebApp with
          | None =>
              inl (Error "LTelegram: Telegram.WebApp.MainButton is not defined.")
          | Some MainButton =>
              match set_isVisible (VBool true)
                                  {| _mainButton := MainButton |} with
              | (inl e, _) => inl e
              | (inr _, this) => inr this
              end
          end
      end
  end.


Definition show : M t unit :=
  on_mainButton (Host.MainButton.received Host.call_show).

Definition hide : M t unit :=
  on_mainButton (Host.MainButton.received Host.call_hide).

Definition onClick (callback : Fn.t) : M t unit :=
  on_mainButton (fun h =>
    Host.MainButton.set_handlers
      (Host.Events.on callback (Host.MainButton.handlers h)) h).

Definition offClick (callback : Fn.t) : M t unit :=
  on_mainButton (fun h =>
    Host.MainButton.set_handlers
      (Host.Events.off callback (Host.MainButton.handlers h)) h).

Definition onceClick (callback : Fn.t) : M (Runtime.t t) unit :=
  handleClick <- Runtime.new_handleClick callback ;;
  Runtime.lift (onClick handleClick).

(** A call [f()]; the second case is the body of [handleClick]. *)
Fixpoint call (f : Fn.t) : M (Runtime.t t) unit :=
  match f with
  | Fn.Client id result => Runtime.call_client id result
  | Fn.HandleClick _ callback =>
      call callback ;;
      Runtime.lift (offClick f)
  end.

(** Modelled from the spec: the click event of the host, as for
    [BackButton.click]. *)
Definition click (w : Runtime.t t) : Runtime.t t :=
  fold_left (fun w f => state_after (call f) w)
            (Host.MainButton.handlers (_mainButton (Runtime.this w))) w.





Definition setParams (params : MainButtonParams) : M t unit :=
  throw_if (is_defined (text params)
            && (typeof (text params) !== "string"))
           (TypeError "LTelegram: text must be a string") ;;
  throw_if (is_defined (color params)
            && negb (isValidHexColor (color params)))
           (ValueError "LTelegram: Invalid hex color value") ;;
  throw_if (is_defined (text_color params)
            && negb (isValidHexColor (text_color params)))
           (ValueError "LTelegram: Invalid hex color value") ;;
  throw_if (is_defined (is_active params)
            && (typeof (is_active params) !== "boolean"))
           (TypeError "LTelegram: is_active must be a boolean") ;;
  throw_if (is_defined (is_visible params)
            && (typeof (is_visible params) !== "boolean"))
           (TypeError "LTelegram: is_visible must be a boolean") ;;
  on_mainButton (Host.MainButton.received (Host.call_setParams params)).

End MainButton.

(* ================================================================== *)
(** * [class WebApp] *)
(* ================================================================== *)

Module WebApp.
Import JS Errors Eff.
Local Open Scope eff_scope.
Local Open Scope string_scope.

(** An instance: the reference to the host's live object and the
    private copy of [initData].  The copy is declared a string, which the
    compiler alone checks, so the field can hold whatever is stored. *)
Record t : Type := {
  _webApp : Host.WebApp.t;
  _initData : value
}.

Definition on_webApp (f : Host.WebApp.t -> Host.WebApp.t) : M t unit :=
  modify (fun this => {| _webApp := f (_webApp this);
                         _initData := _initData this |}).

Definition constructor (Telegram : Host.global) : exn + t :=
  match Telegram with
  | None => inl (Error "LTelegram: Telegram is not defined.")
  | Some Telegram =>
      match Host.WebApp Telegram with
      | None => inl (Error "LTelegram: Telegram.WebApp is not defined.")
      | Some WebApp =>
          inr {| _webApp := WebApp;
                 _initData := VString (Host.WebApp.initData WebApp) |}
      end
  end.

Definition get_initData : M t value :=
  this <- get ;; ret (_initData this).

Definition set_initData (value : value) : M t unit :=
  if typeof value !== "string" then
    modify (fun this =>
              {| _webApp := _webApp this;
                 _initData := VString (Host.WebApp.initData (_webApp this)) |})
  else
    modify (fun this => {| _webApp := _webApp this; _initData := value |}).

Definition get_version : M t value :=
  this <- get ;; ret (Host.WebApp.version (_webApp this)).

Definition get_initDataUnsafe : M t value :=
  this <- get ;; ret (Host.WebApp.initDataUnsafe (_webApp this)).

Definition get_platform : M t value :=
  this <- get ;; ret (Host.WebApp.platform (_webApp this)).

Definition get_colorScheme : M t value :=
  this <- get ;; ret (Host.WebApp.colorScheme (_webApp this)).

Definition get_themeParams : M t value :=
  this <- get ;; ret (Host.WebApp.themeParams (_webApp this)).

Definition get_isExpanded : M t value :=
  this <- get ;; ret (Host.WebApp.isExpanded (_webApp this)).

Definition get_viewportHeight : M t value :=
  this <- get ;; ret (Host.WebApp.viewportHeight (_webApp this)).

Definition get_viewportStableHeight : M t value :=
  this <- get ;; ret (Host.WebApp.viewportStableHeight (_webApp this)).

Definition isValidHexColor (value : value) : bool :=
  test hex_color_pattern value.

Definition get_backgroundColor : M t value :=
  this <- get ;; ret (Host.WebApp.backgroundColor (_webApp this)).

Definition set_backgroundColor (value : value) : M t unit :=
  throw_if (typeof value !== "string")
           (TypeError "LTelegram: value must be a string") ;;
  throw_if (negb (isValidHexColor value))
           (ValueError "LTelegram: Invalid hex color value") ;;
  on_webApp (Host.WebApp.set_backgroundColor value).

Definition get_headerColor : M t value :=
  this <- get ;; ret (Host.WebApp.headerColor (_webApp this)).

Definition set_headerColor (value : value) : M t unit :=
  throw_if (typeof value !== "string")
           (TypeError "LTelegram: value must be a string") ;;
  throw_if (negb (isValidHexColor value))
           (ValueError "LTelegram: Invalid hex color value") ;;
  on_webApp (Host.WebApp.set_headerColor value).

Definition get_isClosingConfirmationEnabled : M t value :=
  this <- get ;;
  ret (Host.WebApp.isClosingConfirmationEnabled (_webApp this)).

Definition set_isClosingConfirmationEnabled (value : value) : M t unit :=
  throw_if (typeof value !== "boolean")
           (TypeError "LTelegram: value must be a boolean") ;;
  on_webApp (Host.WebApp.set_isClosingConfirmationEnabled value).

Definition get_isVerticalSwipesEnabled : M t value :=
  this <- get ;; ret (Host.WebApp.isVerticalSwipesEnabled (_webApp this)).

Definition set_isVerticalSwipesEnabled (value : value) : M t unit :=
  throw_if (typeof value !== "boolean")
           (TypeError "LTelegram: value must be a boolean") ;;
  on_webApp (Host.WebApp.set_isVerticalSwipesEnabled value).

End WebApp.

(* ================================================================== *)
(** * The specification's vocabulary *)
(* ================================================================== *)

Module Spec.
Import JS Errors.
Local Open Scope string_scope.

(** "a character in [[0-9A-Fa-f]]" *)
Definition hex_digit (c : code_unit) : Prop :=
  In c (js "0123456789ABCDEFabcdef").

(** "exactly [#] followed by 6 characters each in [[0-9A-Fa-f]]" *)
Definition hex_color (s : jsstring) : Prop :=
  exists digits,
    s = code "#" :: digits /\ List.length digits = 6 /\ Forall hex_digit digits.

Definition is_boolean (v : value) : Prop := exists b, v = VBool b.

Definition is_string (v : value) : Prop := exists s, v = VString s.

(** The two error kinds of the specification. *)
Definition type_error (r : exn + unit) : Prop :=
  exists message, r = inl (TypeError message).

Definition value_error (r : exn + unit) : Prop :=
  exists message, r = inl (ValueError message).

(** The construction error: the built-in [Error], neither of the two
    kinds above. *)
Definition construction_error {I} (r : exn + I) : Prop :=
  exists message, r = inl (Error message).

(** ** [setParams]: the fields and their rules *)

Inductive field : Type :=
| f_text
| f_color
| f_text_color
| f_is_active
| f_is_visible.

(** "the fixed order text, color, text_color, is_active, is_visible" *)
Definition check_order : list field :=
  [f_text; f_color; f_text_color; f_is_active; f_is_visible].

Definition field_value (f : field) (p : MainButtonParams) : value :=
  match f with
  | f_text => text p
  | f_color => color p
  | f_text_color => text_color p
  | f_is_active => is_active p
  | f_is_visible => is_visible p
  end.

(** "string check for text, hex-format check for color and text_color,
    boolean check for is_active and is_visible" *)
Definition passes (f : field) (v : value) : bool :=
  match f with
  | f_text => match v with VString _ => true | _ => false end
  | f_color | f_text_color => MainButton.isValidHexColor v
  | f_is_active | f_is_visible => match v with VBool _ => true | _ => false end
  end.

(** A field violates its rule when it is defined and fails it. *)
Definition violates (f : field) (p : MainButtonParams) : bool :=
  is_defined (field_value f p) && negb (passes f (field_value f p)).

(** "the corresponding error kind" *)
Definition error_of (f : field) : exn :=
  match f with
  | f_text => TypeError "LTelegram: text must be a string"
  | f_color | f_text_color => ValueError "LTelegram: Invalid hex color value"
  | f_is_active => TypeError "LTelegram: is_active must be a boolean"
  | f_is_visible => TypeError "LTelegram: is_visible must be a boolean"
  end.

Definition first_violation (p : MainButtonParams) : option field :=
  find (fun f => violates f p) check_order.

(** "forwards the entire params object unmodified to the host's
    setParams": the host received that one call, with [p] itself. *)
Definition forwarded (p : MainButtonParams) (this : MainButton.t)
  : MainButton.t :=
  {| MainButton._mainButton :=
       Host.MainButton.received (Host.call_setParams p)
                                (MainButton._mainButton this) |}.

(** What the [initData] getter returns once [m] has run. *)
Definition initData_after (m : Eff.M WebApp.t unit) (this : WebApp.t)
  : exn + value :=
  Eff.outcome WebApp.get_initData (Eff.state_after m this).

(** ** Click callbacks *)

Definition is_client (f : Fn.t) : bool :=
  match f with
  | Fn.Client _ _ => true
  | Fn.HandleClick _ _ => false
  end.

(** The client functions a list of callbacks calls, in order, when each
    is a client function. *)
Definition ids (fs : list Fn.t) : list nat :=
  flat_map (fun f => match f with
                     | Fn.Client id _ => [id]
                     | Fn.HandleClick _ _ => []
                     end) fs.

(** The callbacks registered on the button of a run-time state. *)
Definition backButton_handlers (w : Runtime.t BackButton.t) : list Fn.t :=
  Host.BackButton.handlers (BackButton._backButton (Runtime.this w)).

Definition mainButton_handlers (w : Runtime.t MainButton.t) : list Fn.t :=
  Host.MainButton.handlers (MainButton._mainButton (Runtime.this w)).

(** ** The host capability chain *)

Definition no_Telegram (g : Host.global) : Prop := g = None.

Definition no_WebApp (g : Host.global) : Prop :=
  exists Telegram, g = Some Telegram /\ Host.WebApp Telegram = None.

Definition no_BackButton (g : Host.global) : Prop :=
  exists Telegram WebApp,
    g = Some Telegram /\ Host.WebApp Telegram = Some WebApp
    /\ Host.WebApp.BackButton WebApp = None.

Definition no_MainButton (g : Host.global) : Prop :=
  exists Telegram WebApp,
    g = Some Telegram /\ Host.WebApp Telegram = Some WebApp
    /\ Host.WebApp.MainButton WebApp = None.

(** The main button a page with the whole chain offers. *)
Definition main_button (g : Host.global) : option Host.MainButton.t :=
  match g with
  | Some Telegram =>
      match Host.WebApp Telegram with
      | Some WebApp => Host.WebApp.MainButton WebApp
      | None => None
      end
  | None => None
  end.

End Spec.

(* ================================================================== *)
(** * A sample page *)
(* ================================================================== *)

Module Sample.
Import JS.
Local Open Scope string_scope.

Definition backButton : Host.BackButton.t :=
  {| Host.BackButton.isVisible := VBool false;
     Host.BackButton.handlers := [];
     Host.BackButton.calls := [] |}.

(** A main button that is hidden when the page loads. *)
Definition mainButton : Host.MainButton.t :=
  {| Host.MainButton.text := VString (js "CONTINUE");
     Host.MainButton.color := VString (js "#2481cc");
     Host.MainButton.textColor := VString (js "#ffffff");
     Host.MainButton.isVisible := VBool false;
     Host.MainButton.isActive := VBool true;
     Host.MainButton.isProgressVisible := VBool false;
     Host.MainButton.handlers := [];
     Host.MainButton.calls := [] |}.

Definition webApp (back : option Host.BackButton.t)
           (main : option Host.MainButton.t) : Host.WebApp.t :=
  {| Host.WebApp.initData := js "query_id=AAE&user=42";
     Host.WebApp.version := VString (js "7.7");
     Host.WebApp.initDataUnsafe := VObject;
     Host.WebApp.platform := VString (js "ios");
     Host.WebApp.colorScheme := VString (js "light");
     Host.WebApp.themeParams := VObject;
     Host.WebApp.isExpanded := VBool true;
     Host.WebApp.viewportHeight := VNumber 640;
     Host.WebApp.viewportStableHeight := VNumber 640;
     Host.WebApp.backgroundColor := VString (js "#ffffff");
     Host.WebApp.headerColor := VString (js "#ffffff");
     Host.WebApp.isClosingConfirmationEnabled := VBool false;
     Host.WebApp.isVerticalSwipesEnabled := VBool true;
     Host.WebApp.BackButton := back;
     Host.WebApp.MainButton := main |}.

(** The page with every capability. *)
Definition page : Host.global :=
  Some {| Host.WebApp := Some (webApp (Some backButton) (Some mainButton)) |}.

(** A page whose [WebApp] has neither button. *)
Definition page_without_buttons : Host.global :=
  Some {| Host.WebApp := Some (webApp None None) |}.

(** A page whose [Telegram] has no [WebApp]. *)
Definition page_without_WebApp : Host.global :=
  Some {| Host.WebApp := None |}.

Definition backButton_instance : BackButton.t :=
  {| BackButton._backButton := backButton |}.

Definition mainButton_instance : MainButton.t :=
  {| MainButton._mainButton := mainButton |}.

Definition webApp_instance : WebApp.t :=
  {| WebApp._webApp := webApp (Some backButton) (Some mainButton);
     WebApp._initData := VString (js "stale") |}.

(** A run-time state in which nothing has happened yet. *)
Definition start {I} (this : I) : Runtime.t I :=
  {| Runtime.this := this; Runtime.closures := 0; Runtime.invoked := [] |}.

(** The one-element array [['#ffffff']]. *)
Definition array_of_white : value := VArray [VString (js "#ffffff")].


(** [{ text: 123, color: '#00ff00' }]: the example of the specification. *)
Definition params_text_123 : MainButtonParams :=
  {| text := VNumber 123; color := VString (js "#00ff00");
     text_color := VUndefined; is_active := VUndefined;
     is_visible := VUndefined |}.

(** [{ text: 'Pay', color: '#00ff00', is_active: true }] *)
Definition params_valid : MainButtonParams :=
  {| text := VString (js "Pay"); color := VString (js "#00ff00");
     text_color := VUndefined; is_active := VBool true;
     is_visible := VUndefined |}.

(** [{ color: ['#ffffff'] }] *)
Definition params_array_color : MainButtonParams :=
  {| text := VUndefined; color := array_of_white;
     text_color := VUndefined; is_active := VUndefined;
     is_visible := VUndefined |}.

(** A client callback that throws. *)
Definition throwing : Fn.t := Fn.Client 7 (Some (Errors.Error "boom")).

(** A client callback that returns. *)
Definition returning : Fn.t := Fn.Client 7 None.

End Sample.

(* ================================================================== *)
(** * The classes as a caller sees them *)
(* ================================================================== *)

Module Api.
Import JS Errors.

(** ** The validated properties of [MainButton] *)

Inductive main_property : Type :=
| mp_text
| mp_color
| mp_textColor
| mp_isVisible
| mp_isActive
| mp_isProgressVisible.

(** [MainButton.p = v] *)
Definition main_set (p : main_property) (v : value) : Eff.M MainButton.t unit :=
  match p with
  | mp_text => MainButton.set_text v
  | mp_color => MainButton.set_color v
  | mp_textColor => MainButton.set_textColor v
  | mp_isVisible => MainButton.set_isVisible v
  | mp_isActive => MainButton.set_isActive v
  | mp_isProgressVisible => MainButton.set_isProgressVisible v
  end.

(** [MainButton.p] *)
Definition main_get (p : main_property) : Eff.M MainButton.t value :=
  match p with
  | mp_text => MainButton.get_text
  | mp_color => MainButton.get_color
  | mp_textColor => MainButton.get_textColor
  | mp_isVisible => MainButton.get_isVisible
  | mp_isActive => MainButton.get_isActive
  | mp_isProgressVisible => MainButton.get_isProgressVisible
  end.

(** The values a property takes. *)
Definition main_accepts (p : main_property) (v : value) : Prop :=
  match p with
  | mp_text => Spec.is_string v
  | mp_color | mp_textColor => Spec.hex_color (ToString v)
  | mp_isVisible | mp_isActive | mp_isProgressVisible => Spec.is_boolean v
  end.

(** The write of a property on the host's button. *)
Definition main_write (p : main_property) (v : value)
           (h : Host.MainButton.t) : Host.MainButton.t :=
  match p with
  | mp_text => Host.MainButton.set_text v h
  | mp_color => Host.MainButton.set_color v h
  | mp_textColor => Host.MainButton.set_textColor v h
  | mp_isVisible => Host.MainButton.set_isVisible v h
  | mp_isActive => Host.MainButton.set_isActive v h
  | mp_isProgressVisible => Host.MainButton.set_isProgressVisible v h
  end.

(** ** The validated properties of [WebApp] *)

Inductive web_property : Type :=
| wp_backgroundColor
| wp_headerColor
| wp_isClosingConfirmationEnabled
| wp_isVerticalSwipesEnabled.

Definition web_set (p : web_property) (v : value) : Eff.M WebApp.t unit :=
  match p with
  | wp_backgroundColor => WebApp.set_backgroundColor v
  | wp_headerColor => WebApp.set_headerColor v
  | wp_isClosingConfirmationEnabled =>
      WebApp.set_isClosingConfirmationEnabled v
  | wp_isVerticalSwipesEnabled => WebApp.set_isVerticalSwipesEnabled v
  end.

Definition web_get (p : web_property) : Eff.M WebApp.t value :=
  match p with
  | wp_backgroundColor => WebApp.get_backgroundColor
  | wp_headerColor => WebApp.get_headerColor
  | wp_isClosingConfirmationEnabled =>
      WebApp.get_isClosingConfirmationEnabled
  | wp_isVerticalSwipesEnabled => WebApp.get_isVerticalSwipesEnabled
  end.

(** A string that is a hex color. *)
Definition hex_color_string (v : value) : Prop :=
  exists s, v = VString s /\ Spec.hex_color s.

Definition web_accepts (p : web_property) (v : value) : Prop :=
  match p with
  | wp_backgroundColor | wp_headerColor => hex_color_string v
  | wp_isClosingConfirmationEnabled | wp_isVerticalSwipesEnabled =>
      Spec.is_boolean v
  end.

Definition web_write (p : web_property) (v : value)
           (h : Host.WebApp.t) : Host.WebApp.t :=
  match p with
  | wp_backgroundColor => Host.WebApp.set_backgroundColor v h
  | wp_headerColor => Host.WebApp.set_headerColor v h
  | wp_isClosingConfirmationEnabled =>
      Host.WebApp.set_isClosingConfirmationEnabled v h
  | wp_isVerticalSwipesEnabled => Host.WebApp.set_isVerticalSwipesEnabled v h
  end.

(** The getters of [WebApp] that have no setter. *)
Definition web_readonly : list (Eff.M WebApp.t value) :=
  [WebApp.get_version; WebApp.get_initDataUnsafe; WebApp.get_platform;
   WebApp.get_colorScheme; WebApp.get_themeParams; WebApp.get_isExpanded;
   WebApp.get_viewportHeight; WebApp.get_viewportStableHeight].

(** ** [setParams] and the property setters *)

(** The property setter that takes the value of a field of
    [MainButtonParams]. *)
Definition setter_of (f : Spec.field) : value -> Eff.M MainButton.t unit :=
  match f with
  | Spec.f_text => MainButton.set_text
  | Spec.f_color => MainButton.set_color
  | Spec.f_text_color => MainButton.set_textColor
  | Spec.f_is_active => MainButton.set_isActive
  | Spec.f_is_visible => MainButton.set_isVisible
  end.

(** ** Sequences of calls

    What a page does with an instance, one step at a time: a method call
    or an assignment, whose exception the page catches, or a click the
    host raises. *)

Inductive back_op : Type :=
| b_set_isVisible (v : value)
| b_show
| b_hide
| b_onClick (f : Fn.t)
| b_offClick (f : Fn.t)
| b_onceClick (f : Fn.t)
| b_click.

Definition back_step (o : back_op) (w : Runtime.t BackButton.t)
  : Runtime.t BackButton.t :=
  match o with
  | b_set_isVisible v =>
      Eff.state_after (Runtime.lift (BackButton.set_isVisible v)) w
  | b_show => Eff.state_after (Runtime.lift BackButton.show) w
  | b_hide => Eff.state_after (Runtime.lift BackButton.hide) w
  | b_onClick f => Eff.state_after (Runtime.lift (BackButton.onClick f)) w
  | b_offClick f => Eff.state_after (Runtime.lift (BackButton.offClick f)) w
  | b_onceClick f => Eff.state_after (BackButton.onceClick f) w
  | b_click => BackButton.click w
  end.

Definition back_run (ops : list back_op) (w : Runtime.t BackButton.t)
  : Runtime.t BackButton.t :=
  fold_left (fun w o => back_step o w) ops w.




Inductive web_op : Type :=
| w_set_initData (v : value)
| w_set (p : web_property) (v : value).

Definition web_step (o : web_op) (this : WebApp.t) : WebApp.t :=
  match o with
  | w_set_initData v => Eff.state_after (WebApp.set_initData v) this
  | w_set p v => Eff.state_after (web_set p v) this
  end.

Definition web_run (ops : list web_op) (this : WebApp.t) : WebApp.t :=
  fold_left (fun this o => web_step o this) ops this.

(** ** What a well-typed host object holds *)

(** A call the declared types of the host allow, as far as the wrapper
    checks them: [setText] with a string, [setParams] with an object none
    of whose fields violates its rule. *)
Definition call_ok (c : Host.call) : Prop :=
  match c with
  | Host.call_setText v => Spec.is_string v
  | Host.call_setParams p => forall f, Spec.violates f p = false
  | _ => True
  end.

Definition back_ok (h : Host.BackButton.t) : Prop :=
  Spec.is_boolean (Host.BackButton.isVisible h).

Definition main_ok (h : Host.MainButton.t) : Prop :=
  Spec.is_string (Host.MainButton.text h)
  /\ Spec.hex_color (ToString (Host.MainButton.color h))
  /\ Spec.hex_color (ToString (Host.MainButton.textColor h))
  /\ Spec.is_boolean (Host.MainButton.isVisible h)
  /\ Spec.is_boolean (Host.MainButton.isActive h)
  /\ Spec.is_boolean (Host.MainButton.isProgressVisible h)
  /\ Forall call_ok (Host.MainButton.calls h).

Definition web_ok (this : WebApp.t) : Prop :=
  Spec.is_string (WebApp._initData this)
  /\ hex_color_string (Host.WebApp.backgroundColor (WebApp._webApp this))
  /\ hex_color_string (Host.WebApp.headerColor (WebApp._webApp this))
  /\ Spec.is_boolean
       (Host.WebApp.isClosingConfirmationEnabled (WebApp._webApp this))
  /\ Spec.is_boolean
       (Host.WebApp.isVerticalSwipesEnabled (WebApp._webApp this)).

(** The primitive values other than strings. *)
Definition primitive (v : value) : Prop :=
  match v with
  | VUndefined | VNull | VBool _ | VNumber _ => True
  | VString _ | VArray _ | VObject => False
  end.

(** ** The rules of [MainButtonParams], on the values themselves

    What a field has to be, without reference to the validator of the
    class: a string, a string that is a hex color, a boolean. *)
Definition field_rule (f : Spec.field) (v : value) : Prop :=
  match f with
  | Spec.f_text => Spec.is_string v
  | Spec.f_color | Spec.f_text_color => hex_color_string v
  | Spec.f_is_active | Spec.f_is_visible => Spec.is_boolean v
  end.

(** A field breaks its rule when it is not [undefined] and is not what
    the rule asks for. *)
Definition breaks (f : Spec.field) (p : MainButtonParams) : Prop :=
  Spec.field_value f p <> VUndefined
  /\ ~ field_rule f (Spec.field_value f p).

(** The two color fields hold what their declared type allows: nothing,
    or a string. *)
Definition declared_colors (p : MainButtonParams) : Prop :=
  (color p = VUndefined \/ Spec.is_string (color p))
  /\ (text_color p = VUndefined \/ Spec.is_string (text_color p)).

End Api.

(* ================================================================== *)
(** * The matcher on the hex-color pattern *)
(* ================================================================== *)

Section Matcher.
Import JS.

(** The class of the pattern accepts exactly the 22 hex digits. *)
Lemma hex_class_digit (c : code_unit) :
  existsb (in_range c)
    [(code "0", code "9"); (code "A", code "F"); (code "a", code "f")] = true
  <-> Spec.hex_digit c.
Proof.
  unfold Spec.hex_digit, in_range, code; simpl.
  rewrite !orb_true_iff, !andb_true_iff, !N.leb_le.
  split.
  - intros [[H1 H2] | [[H1 H2] | [[H1 H2] | H]]]; [| | | discriminate].
    + assert (c = 48 \/ c = 49 \/ c = 50 \/ c = 51 \/ c = 52 \/ c = 53
              \/ c = 54 \/ c = 55 \/ c = 56 \/ c = 57)%N by lia.
      intuition.
    + assert (c = 65 \/ c = 66 \/ c = 67 \/ c = 68 \/ c = 69 \/ c = 70)%N
        by lia.
      intuition.
    + assert (c = 97 \/ c = 98 \/ c = 99 \/ c = 100 \/ c = 101 \/ c = 102)%N
        by lia.
      intuition.
  - intros H.
    repeat (destruct H as [H | H]; [subst c; cbn; lia |]).
    destruct H.
Qed.

(** The unfolding equations of the matcher that the proofs below use. *)
Lemma matches_Rep_S (r : regex) (n : nat) (a : bool) (s : jsstring)
      (k : bool -> jsstring -> bool) :
  matches (Rep (S n) r) a s k
  = matches r a s (fun a' s' => matches (Rep n r) a' s' k).
Proof. reflexivity. Qed.

Lemma matches_Cls_cons (ranges : list (code_unit * code_unit)) (a : bool)
      (x : code_unit) (s : jsstring) (k : bool -> jsstring -> bool) :
  matches (Cls ranges) a (x :: s) k
  = existsb (in_range x) ranges && k false s.
Proof. reflexivity. Qed.

(** [r{n}] over a class consumes exactly [n] characters of the class and
    then continues, no longer at index 0 unless [n] is 0. *)
Lemma matches_Rep_Cls (ranges : list (code_unit * code_unit)) (n : nat) :
  forall (a : bool) (s : jsstring) (k : bool -> jsstring -> bool),
    matches (Rep n (Cls ranges)) a s k = true
    <-> exists pre suf,
          s = pre ++ suf /\ List.length pre = n
          /\ Forall (fun c => existsb (in_range c) ranges = true) pre
          /\ k (match n with O => a | S _ => false end) suf = true.
Proof.
  induction n as [| n IH]; intros a s k.
  - simpl. split.
    + intros H. exists [], s. repeat split; auto.
    + intros (pre & suf & -> & Hlen & _ & Hk).
      destruct pre; [exact Hk | discriminate].
  - rewrite matches_Rep_S. destruct s as [| x s].
    + split; [discriminate |].
      intros (pre & suf & Hs & Hlen & _).
      destruct pre; discriminate.
    + rewrite matches_Cls_cons, andb_true_iff, IH. split.
      * intros (Hx & pre & suf & -> & Hlen & Hall & Hk).
        exists (x :: pre), suf. simpl. repeat split; auto.
        destruct n; exact Hk.
      * intros (pre & suf & Hs & Hlen & Hall & Hk).
        destruct pre as [| y pre]; [discriminate |].
        simpl in Hs, Hlen. injection Hs as -> ->. injection Hlen as Hlen.
        inversion Hall; subst. split; [assumption |].
        exists pre, suf. repeat split; auto.
        destruct (List.length pre); exact Hk.
Qed.

Lemma search_eq (r : regex) (a : bool) (s : jsstring) :
  search r a s
  = matches r a s (fun _ _ => true)
    || match s with
       | [] => false
       | _ :: s' => search r false s'
       end.
Proof. destruct s; reflexivity. Qed.

(** The pattern starts with [^]: no match starts after index 0. *)
Lemma search_after_start (s : jsstring) :
  search hex_color_pattern false s = false.
Proof.
  induction s as [| c s IH]; simpl; [reflexivity | exact IH].
Qed.

(** On a string, the test of the pattern is the specification's rule. *)
Lemma test_hex_color_pattern (s : jsstring) :
  test hex_color_pattern (VString s) = true <-> Spec.hex_color s.
Proof.
  unfold test, Spec.hex_color.
  change (ToString (VString s)) with s.
  assert (Hsearch : search hex_color_pattern true s
                    = matches hex_color_pattern true s (fun _ _ => true)).
  { rewrite search_eq. destruct s as [| c s].
    - apply orb_false_r.
    - rewrite search_after_start. apply orb_false_r. }
  rewrite Hsearch. unfold hex_color_pattern.
  change (matches (Cat Bol ?r) true s ?k) with (matches r true s k).
  destruct s as [| h s].
  - simpl. split; [discriminate | intros (d & H & _); discriminate].
  - change (matches (Cat (Chr ?c) ?r) true (h :: s) ?k)
      with ((h =? c)%N && matches r false s k).
    rewrite andb_true_iff, N.eqb_eq.
    change (matches (Cat (Rep 6 ?c) Eol) false s ?k)
      with (matches (Rep 6 c) false s (fun a' s' => matches Eol a' s' k)).
    rewrite matches_Rep_Cls. split.
    + intros (-> & pre & suf & -> & Hlen & Hall & Hk).
      destruct suf; [| discriminate].
      exists pre. rewrite app_nil_r. repeat split; auto.
      eapply Forall_impl; [| exact Hall].
      intros c Hc. apply hex_class_digit, Hc.
    + intros (digits & Hs & Hlen & Hall).
      injection Hs as -> ->. split; [reflexivity |].
      exists digits, []. rewrite app_nil_r. repeat split; auto.
      eapply Forall_impl; [| exact Hall].
      intros c Hc. apply hex_class_digit, Hc.
Qed.

End Matcher.

(* ================================================================== *)
(** * The hex-color validator *)
(* ================================================================== *)

Section HexColor.
Import JS.

(** The validator of either class is the test of the one pattern on the
    string conversion of its argument. *)
Lemma isValidHexColor_ToString (v : value) :
  (MainButton.isValidHexColor v = true <-> Spec.hex_color (ToString v))
  /\ (WebApp.isValidHexColor v = true <-> Spec.hex_color (ToString v)).
Proof.
  pose proof (test_hex_color_pattern (ToString v)) as H.
  split; exact H.
Qed.

Lemma isValidHexColor_false (v : value) :
  (MainButton.isValidHexColor v = false <-> ~ Spec.hex_color (ToString v))
  /\ (WebApp.isValidHexColor v = false <-> ~ Spec.hex_color (ToString v)).
Proof.
  destruct (isValidHexColor_ToString v) as [Hm Hw].
  split; rewrite <- not_true_iff_false; [rewrite Hm | rewrite Hw]; reflexivity.
Qed.

(** C1.  On a string, [isValidHexColor] of [MainButton] and of [WebApp]
    returns true if and only if the string is exactly [#] followed by six
    characters, each in [[0-9A-Fa-f]]; on every other string it returns
    false. *)
Theorem isValidHexColor_string (s : jsstring) :
  (MainButton.isValidHexColor (VString s) = true <-> Spec.hex_color s)
  /\ (WebApp.isValidHexColor (VString s) = true <-> Spec.hex_color s)
  /\ (MainButton.isValidHexColor (VString s) = false <-> ~ Spec.hex_color s)
  /\ (WebApp.isValidHexColor (VString s) = false <-> ~ Spec.hex_color s).
Proof.
  destruct (isValidHexColor_ToString (VString s)) as [Hm Hw].
  destruct (isValidHexColor_false (VString s)) as [Hm' Hw'].
  simpl ToString in *. auto.
Qed.

(** The strings the specification names. *)
Example isValidHexColor_accepts :
  MainButton.isValidHexColor (VString (js "#1A2B3C")) = true
  /\ WebApp.isValidHexColor (VString (js "#ffffff")) = true.
Proof. split; reflexivity. Qed.

(** Wrong length, a missing [#], a character outside the class, text
    around a well-formed color, a line end after one. *)
Example isValidHexColor_rejects :
  map (fun s => MainButton.isValidHexColor (VString (js s)))
      ["#1A2B3"; "#1A2B3C4"; "1A2B3CD"; "#1A2B3G"; " #1A2B3C"; ""]%string
  = [false; false; false; false; false; false]
  /\ WebApp.isValidHexColor (VString (js "#1A2B3C" ++ [10%N])) = false.
Proof. split; reflexivity. Qed.

End HexColor.

(* ================================================================== *)
(** * [typeof] tests *)
(* ================================================================== *)

Section Typeof.
Import JS.
Local Open Scope eff_scope.
Local Open Scope string_scope.

Lemma typeof_not_boolean (v : value) :
  (typeof v !== "boolean") = true <-> ~ Spec.is_boolean v.
Proof.
  unfold Spec.is_boolean. split.
  - intros H [b ->]. discriminate H.
  - intros H. destruct v; try reflexivity. exfalso. apply H. eauto.
Qed.

Lemma typeof_boolean (b : bool) : (typeof (VBool b) !== "boolean") = false.
Proof. reflexivity. Qed.

Lemma typeof_not_string (v : value) :
  (typeof v !== "string") = true <-> ~ Spec.is_string v.
Proof.
  unfold Spec.is_string. split.
  - intros H [s ->]. discriminate H.
  - intros H. destruct v; try reflexivity. exfalso. apply H. eauto.
Qed.

Lemma typeof_string (s : jsstring) : (typeof (VString s) !== "string") = false.
Proof. reflexivity. Qed.

End Typeof.

(** A guarded assignment: the guard throws and nothing is written, or it
    passes and the write happens. *)
Lemma guarded_throws {St : Type} (c : bool) (e : Errors.exn)
      (m : Eff.M St unit) (s : St) :
  c = true -> Eff.bind (Eff.throw_if c e) (fun _ => m) s = (inl e, s).
Proof. intros ->. reflexivity. Qed.

Lemma guarded_passes {St : Type} (c : bool) (e : Errors.exn)
      (m : Eff.M St unit) (s : St) :
  c = false -> Eff.bind (Eff.throw_if c e) (fun _ => m) s = m s.
Proof. intros ->. reflexivity. Qed.

(* ================================================================== *)
(** * Boolean properties *)
(* ================================================================== *)

Section BooleanSetters.
Import JS Errors Eff.

(** C3.  A value that is not a boolean, assigned to any of the six
    boolean properties, raises a type error and leaves the state (so the
    host's value) as it was; a boolean is stored in the host's
    property. *)
Theorem boolean_setters (v : value) :
  (~ Spec.is_boolean v ->
   (forall this : BackButton.t,
       Spec.type_error (outcome (BackButton.set_isVisible v) this)
       /\ state_after (BackButton.set_isVisible v) this = this)
   /\ (forall this : MainButton.t,
          Spec.type_error (outcome (MainButton.set_isVisible v) this)
          /\ state_after (MainButton.set_isVisible v) this = this
          /\ Spec.type_error (outcome (MainButton.set_isActive v) this)
          /\ state_after (MainButton.set_isActive v) this = this
          /\ Spec.type_error (outcome (MainButton.set_isProgressVisible v) this)
          /\ state_after (MainButton.set_isProgressVisible v) this = this)
   /\ (forall this : WebApp.t,
          Spec.type_error
            (outcome (WebApp.set_isClosingConfirmationEnabled v) this)
          /\ state_after (WebApp.set_isClosingConfirmationEnabled v) this = this
          /\ Spec.type_error
               (outcome (WebApp.set_isVerticalSwipesEnabled v) this)
          /\ state_after (WebApp.set_isVerticalSwipesEnabled v) this = this))
  /\ (Spec.is_boolean v ->
      (forall this : BackButton.t,
          BackButton.set_isVisible v this
          = (inr tt,
             {| BackButton._backButton :=
                  Host.BackButton.set_isVisible
                    v (BackButton._backButton this) |}))
      /\ (forall this : MainButton.t,
             MainButton.set_isVisible v this
             = (inr tt,
                {| MainButton._mainButton :=
                     Host.MainButton.set_isVisible
                       v (MainButton._mainButton this) |})
             /\ MainButton.set_isActive v this
                = (inr tt,
                   {| MainButton._mainButton :=
                        Host.MainButton.set_isActive
                          v (MainButton._mainButton this) |})
             /\ MainButton.set_isProgressVisible v this
                = (inr tt,
                   {| MainButton._mainButton :=
                        Host.MainButton.set_isProgressVisible
                          v (MainButton._mainButton this) |}))
      /\ (forall this : WebApp.t,
             WebApp.set_isClosingConfirmationEnabled v this
             = (inr tt,
                {| WebApp._webApp :=
                     Host.WebApp.set_isClosingConfirmationEnabled
                       v (WebApp._webApp this);
                   WebApp._initData := WebApp._initData this |})
             /\ WebApp.set_isVerticalSwipesEnabled v this
                = (inr tt,
                   {| WebApp._webApp :=
                        Host.WebApp.set_isVerticalSwipesEnabled
                          v (WebApp._webApp this);
                      WebApp._initData := WebApp._initData this |}))).
Proof.
  split.
  - intros Hv. apply typeof_not_boolean in Hv.
    unfold BackButton.set_isVisible, MainButton.set_isVisible,
      MainButton.set_isActive, MainButton.set_isProgressVisible,
      WebApp.set_isClosingConfirmationEnabled,
      WebApp.set_isVerticalSwipesEnabled, outcome, state_after,
      Spec.type_error.
    repeat split; intros; rewrite (guarded_throws _ _ _ Hv); simpl; eauto.
  - intros [b ->].
    unfold BackButton.set_isVisible, MainButton.set_isVisible,
      MainButton.set_isActive, MainButton.set_isProgressVisible,
      WebApp.set_isClosingConfirmationEnabled,
      WebApp.set_isVerticalSwipesEnabled.
    repeat split; intros; rewrite (guarded_passes _ _ _ (typeof_boolean b));
      reflexivity.
Qed.

(** The number [1] is not a boolean: the first half of [boolean_setters]
    at [1], on the sample back button. *)
Lemma boolean_setters_witness :
  ~ Spec.is_boolean (VNumber 1)
  /\ Spec.type_error
       (outcome (BackButton.set_isVisible (VNumber 1))
                Sample.backButton_instance)
  /\ state_after (BackButton.set_isVisible (VNumber 1))
                 Sample.backButton_instance
     = Sample.backButton_instance.
Proof.
  assert (H : ~ Spec.is_boolean (VNumber 1)).
  { intros [b Hb]. discriminate Hb. }
  split; [exact H |].
  exact (proj1 (proj1 (boolean_setters (VNumber 1)) H)
               Sample.backButton_instance).
Defined.

End BooleanSetters.

(* ================================================================== *)
(** * [MainButton.setParams] *)
(* ================================================================== *)

Section SetParams.
Import JS Errors Eff.
Local Open Scope eff_scope.

(** Each condition of the method is the rule of its field. *)
Lemma setParams_condition (p : MainButtonParams) :
  is_defined (text p) && (typeof (text p) !== "string"%string)
  = Spec.violates Spec.f_text p
  /\ is_defined (color p) && negb (MainButton.isValidHexColor (color p))
     = Spec.violates Spec.f_color p
  /\ is_defined (text_color p)
     && negb (MainButton.isValidHexColor (text_color p))
     = Spec.violates Spec.f_text_color p
  /\ is_defined (is_active p) && (typeof (is_active p) !== "boolean"%string)
     = Spec.violates Spec.f_is_active p
  /\ is_defined (is_visible p) && (typeof (is_visible p) !== "boolean"%string)
     = Spec.violates Spec.f_is_visible p.
Proof.
  unfold Spec.violates; simpl.
  repeat split; try reflexivity.
  - destruct (text p); reflexivity.
  - destruct (is_active p); reflexivity.
  - destruct (is_visible p); reflexivity.
Qed.

(** The method, read off the first field that violates its rule. *)
Lemma setParams_first_violation (p : MainButtonParams) (this : MainButton.t) :
  MainButton.setParams p this
  = match Spec.first_violation p with
    | Some f => (inl (Spec.error_of f), this)
    | None => (inr tt, Spec.forwarded p this)
    end.
Proof.
  destruct (setParams_condition p) as (H1 & H2 & H3 & H4 & H5).
  unfold MainButton.setParams, Spec.first_violation, Spec.check_order.
  rewrite H1, H2, H3, H4, H5. simpl find.
  destruct (Spec.violates Spec.f_text p); [reflexivity |].
  destruct (Spec.violates Spec.f_color p); [reflexivity |].
  destruct (Spec.violates Spec.f_text_color p); [reflexivity |].
  destruct (Spec.violates Spec.f_is_active p); [reflexivity |].
  destruct (Spec.violates Spec.f_is_visible p); reflexivity.
Qed.

Lemma first_violation_None (p : MainButtonParams) :
  Spec.first_violation p = None
  <-> forall f, Spec.violates f p = false.
Proof.
  unfold Spec.first_violation. split.
  - intros H f.
    apply (find_none _ _ H f). destruct f; simpl; auto 6.
  - intros H. unfold Spec.check_order. simpl. rewrite !H. reflexivity.
Qed.

Lemma first_violation_Some (p : MainButtonParams) (f : Spec.field) :
  Spec.first_violation p = Some f -> Spec.violates f p = true.
Proof.
  intros H. apply find_some in H. apply H.
Qed.

Lemma error_of_kind (f : Spec.field) :
  Spec.type_error (inl (Spec.error_of f))
  \/ Spec.value_error (inl (Spec.error_of f)).
Proof.
  destruct f; simpl; [left | right | right | left | left]; eexists;
    reflexivity.
Qed.

(** C2 at [{ color: ['#ffffff'] }].  The color is defined and is no
    hex-color string, yet the call raises nothing and the host receives
    the object: the validator tests the string conversion of the field,
    which is [#ffffff]. *)
Theorem setParams_forwards_array_color :
  Api.breaks Spec.f_color Sample.params_array_color
  /\ outcome (MainButton.setParams Sample.params_array_color)
             Sample.mainButton_instance
     = inr tt
  /\ Host.MainButton.calls
       (MainButton._mainButton
          (state_after (MainButton.setParams Sample.params_array_color)
                       Sample.mainButton_instance))
     = [Host.call_setParams Sample.params_array_color].
Proof.
  split; [| split; reflexivity].
  split.
  - discriminate.
  - intros (s & Hs & _). discriminate Hs.
Qed.

(** With color fields that are absent or strings, a field violates the
    test of the method exactly when it breaks its rule. *)
Lemma violates_breaks (p : MainButtonParams) (f : Spec.field) :
  Api.declared_colors p ->
  (Spec.violates f p = true <-> Api.breaks f p).
Proof.
  intros [Hc Ht]. unfold Spec.violates, Api.breaks.
  assert (Hcolor : forall v,
             v = VUndefined \/ Spec.is_string v ->
             is_defined v && negb (MainButton.isValidHexColor v) = true
             <-> v <> VUndefined /\ ~ Api.hex_color_string v).
  { intros v [-> | [s ->]]; simpl.
    - split; [discriminate | intros [H _]; contradiction H; reflexivity].
    - rewrite negb_true_iff.
      rewrite (proj1 (isValidHexColor_false (VString s))). simpl.
      split.
      + intros H. split; [discriminate |].
        intros (s' & Hs & Hhex). injection Hs as <-. exact (H Hhex).
      + intros [_ H] Hhex. apply H. exists s. auto. }
  destruct f; simpl; [| apply Hcolor, Hc | apply Hcolor, Ht | |].
  all: match goal with
       | |- context [is_defined ?v] => destruct v
       end; simpl;
    (split; [intros H | intros [H1 H2]]);
    try discriminate H; try reflexivity;
    try (contradiction H1; reflexivity);
    try (split; [discriminate | intros [? Hx]; discriminate Hx]);
    contradiction H2; eexists; reflexivity.
Qed.

(** The first element of a list that satisfies a test. *)
Lemma find_first {A : Type} (test : A -> bool) (before after : list A)
      (x : A) :
  (forall y, In y before -> test y = false) -> test x = true ->
  find test (before ++ x :: after) = Some x.
Proof.
  intros Hbefore Hx. induction before as [| y before IH]; simpl.
  - rewrite Hx. reflexivity.
  - rewrite (Hbefore y (or_introl eq_refl)).
    apply IH. intros z Hz. apply Hbefore. right. exact Hz.
Qed.

(** X13.  On a params object whose color fields are absent or strings:
    when no field breaks its rule (a string for text, a string that is
    [#] and six hex digits for the colors, a boolean for the flags),
    [setParams] raises nothing and the host receives one [setParams] call
    with the object itself; when a field breaks its rule and no field
    before it in the order text, color, text_color, is_active, is_visible
    does, the call raises the error of that field and the state is
    untouched. *)
Theorem setParams_on_declared_colors
        (p : MainButtonParams) (this : MainButton.t) :
  Api.declared_colors p ->
  ((forall f, ~ Api.breaks f p) ->
   MainButton.setParams p this = (inr tt, Spec.forwarded p this))
  /\ (forall before f after,
        [Spec.f_text; Spec.f_color; Spec.f_text_color; Spec.f_is_active;
         Spec.f_is_visible] = before ++ f :: after ->
        (forall g, In g before -> ~ Api.breaks g p) ->
        Api.breaks f p ->
        MainButton.setParams p this = (inl (Spec.error_of f), this)).
Proof.
  intros Hdecl. rewrite setParams_first_violation. split.
  - intros Hall.
    assert (Hnone : Spec.first_violation p = None).
    { apply first_violation_None. intros f.
      apply not_true_is_false. intros Hf.
      apply (Hall f), (@violates_breaks p f Hdecl), Hf. }
    rewrite Hnone. reflexivity.
  - intros before f after Horder Hbefore Hf.
    unfold Spec.first_violation, Spec.check_order. rewrite Horder.
    rewrite (@find_first _ (fun g => Spec.violates g p) before after f).
    + reflexivity.
    + intros g Hg. apply not_true_is_false. intros Hv.
      apply (Hbefore g Hg), (@violates_breaks p g Hdecl), Hv.
    + apply (@violates_breaks p f Hdecl), Hf.
Qed.

(** [{ text: 123, color: '#00ff00' }]: the type error of text, and the
    button keeps its color. *)
Lemma setParams_on_declared_colors_witness :
  Api.declared_colors Sample.params_text_123
  /\ Api.breaks Spec.f_text Sample.params_text_123
  /\ MainButton.setParams Sample.params_text_123 Sample.mainButton_instance
     = (inl (TypeError "LTelegram: text must be a string"%string),
        Sample.mainButton_instance).
Proof.
  assert (Hd : Api.declared_colors Sample.params_text_123).
  { split; [right; eexists; reflexivity | left; reflexivity]. }
  assert (Hb : Api.breaks Spec.f_text Sample.params_text_123).
  { split; [discriminate | intros [s Hs]; discriminate Hs]. }
  split; [exact Hd |]. split; [exact Hb |].
  apply (proj2 (@setParams_on_declared_colors Sample.params_text_123
                  Sample.mainButton_instance Hd)
               [] Spec.f_text
               [Spec.f_color; Spec.f_text_color; Spec.f_is_active;
                Spec.f_is_visible]);
    [reflexivity | intros g [] | exact Hb].
Defined.

(** A params object whose fields all pass reaches the host as it is. *)
Example setParams_forwards_valid :
  MainButton.setParams Sample.params_valid Sample.mainButton_instance
  = (inr tt,
     {| MainButton._mainButton :=
          Host.MainButton.received
            (Host.call_setParams Sample.params_valid) Sample.mainButton |}).
Proof. reflexivity. Qed.



End SetParams.

(* ================================================================== *)
(** * [WebApp]: the copy of [initData] and the two colors *)
(* ================================================================== *)

Section WebAppProperties.
Import JS Errors Eff.

(** C5.  The constructor takes the private copy from the host, a
    string, and the getter returns the copy, whatever the host holds by
    then.  Assigning a string makes it the copy.  Assigning anything else
    raises nothing and makes the copy the host's [initData] of that
    moment, whatever the copy was and whatever was assigned; the host
    object is never written. *)
Theorem initData_copy :
  (forall (Telegram : Host.Telegram) (WebApp : Host.WebApp.t),
      Host.WebApp Telegram = Some WebApp ->
      exists this,
        WebApp.constructor (Some Telegram) = inr this
        /\ WebApp._webApp this = WebApp
        /\ outcome WebApp.get_initData this
           = inr (VString (Host.WebApp.initData WebApp)))
  /\ (forall (host : Host.WebApp.t) (copy : value),
         outcome WebApp.get_initData
                 {| WebApp._webApp := host; WebApp._initData := copy |}
         = inr copy)
  /\ (forall (this : WebApp.t) (s : jsstring),
         outcome (WebApp.set_initData (VString s)) this = inr tt
         /\ Spec.initData_after (WebApp.set_initData (VString s)) this
            = inr (VString s)
         /\ WebApp._webApp (state_after (WebApp.set_initData (VString s)) this)
            = WebApp._webApp this)
  /\ (forall (this : WebApp.t) (v : value),
         ~ Spec.is_string v ->
         outcome (WebApp.set_initData v) this = inr tt
         /\ Spec.initData_after (WebApp.set_initData v) this
            = inr (VString (Host.WebApp.initData (WebApp._webApp this)))
         /\ Spec.initData_after (WebApp.set_initData v) this <> inr v
         /\ WebApp._webApp (state_after (WebApp.set_initData v) this)
            = WebApp._webApp this).
Proof.
  split; [| split; [| split]].
  - intros tg wa H. unfold WebApp.constructor. rewrite H.
    eexists. repeat split.
  - reflexivity.
  - intros this s. repeat split.
  - intros this v Hv. pose proof Hv as Hty. apply typeof_not_string in Hty.
    unfold Spec.initData_after, outcome, state_after, WebApp.set_initData.
    rewrite Hty. repeat split. simpl. intros H. injection H as H.
    apply Hv. eexists. symmetry. exact H.
Qed.

(** The number [42] assigned on the sample instance, whose copy is
    stale: the getter then returns the host's value. *)
Lemma initData_copy_witness :
  ~ Spec.is_string (VNumber 42)
  /\ outcome (WebApp.set_initData (VNumber 42)) Sample.webApp_instance
     = inr tt
  /\ Spec.initData_after (WebApp.set_initData (VNumber 42)) Sample.webApp_instance
     = inr (VString (js "query_id=AAE&user=42")).
Proof.
  assert (H : ~ Spec.is_string (VNumber 42)).
  { intros [s Hs]. discriminate Hs. }
  split; [exact H |].
  destruct (proj2 (proj2 (proj2 initData_copy))
                  Sample.webApp_instance (VNumber 42) H)
    as (Hout & Hget & _).
  split; [exact Hout | exact Hget].
Defined.

(** The copy is a string after any sequence of assignments. *)
Lemma initData_stays_string (vs : list value) (this : WebApp.t) :
  Spec.is_string (WebApp._initData this) ->
  Spec.is_string
    (WebApp._initData
       (fold_left (fun w v => state_after (WebApp.set_initData v) w) vs this)).
Proof.
  revert this. induction vs as [| v vs IH]; intros this H; simpl; [exact H |].
  apply IH. unfold state_after, WebApp.set_initData.
  destruct v; simpl; unfold Spec.is_string; eauto.
Qed.

(** C6.  The [backgroundColor] and [headerColor] setters: a value that
    is not a string raises a type error; a string that is not a hex color
    raises a value error; in both cases the state is untouched.  A string
    that is a hex color is stored in the host's property. *)
Theorem webApp_color_setters (v : value) (this : WebApp.t) :
  (~ Spec.is_string v ->
   Spec.type_error (outcome (WebApp.set_backgroundColor v) this)
   /\ state_after (WebApp.set_backgroundColor v) this = this
   /\ Spec.type_error (outcome (WebApp.set_headerColor v) this)
   /\ state_after (WebApp.set_headerColor v) this = this)
  /\ (forall s, v = VString s -> ~ Spec.hex_color s ->
        Spec.value_error (outcome (WebApp.set_backgroundColor v) this)
        /\ state_after (WebApp.set_backgroundColor v) this = this
        /\ Spec.value_error (outcome (WebApp.set_headerColor v) this)
        /\ state_after (WebApp.set_headerColor v) this = this)
  /\ (forall s, v = VString s -> Spec.hex_color s ->
        WebApp.set_backgroundColor v this
        = (inr tt,
           {| WebApp._webApp :=
                Host.WebApp.set_backgroundColor v (WebApp._webApp this);
              WebApp._initData := WebApp._initData this |})
        /\ WebApp.set_headerColor v this
           = (inr tt,
              {| WebApp._webApp :=
                   Host.WebApp.set_headerColor v (WebApp._webApp this);
                 WebApp._initData := WebApp._initData this |})).
Proof.
  unfold WebApp.set_backgroundColor, WebApp.set_headerColor, outcome,
    state_after, Spec.type_error, Spec.value_error.
  split; [| split].
  - intros Hv. apply typeof_not_string in Hv.
    rewrite !(guarded_throws _ _ _ Hv). simpl. eauto 6.
  - intros s -> Hs.
    apply (proj2 (isValidHexColor_false (VString s))) in Hs.
    rewrite !(guarded_passes _ _ _ (typeof_string s)).
    assert (Hn : negb (WebApp.isValidHexColor (VString s)) = true)
      by (rewrite Hs; reflexivity).
    rewrite !(guarded_throws _ _ _ Hn). simpl. eauto 6.
  - intros s -> Hs.
    apply (proj2 (isValidHexColor_ToString (VString s))) in Hs.
    rewrite !(guarded_passes _ _ _ (typeof_string s)).
    assert (Hn : negb (WebApp.isValidHexColor (VString s)) = false)
      by (rewrite Hs; reflexivity).
    rewrite !(guarded_passes _ _ _ Hn). split; reflexivity.
Qed.

(** The array [['#ffffff']] is refused as a background color although it
    prints as a hex color: the type check comes first. *)
Lemma webApp_color_setters_witness :
  ~ Spec.is_string Sample.array_of_white
  /\ Spec.type_error
       (outcome (WebApp.set_backgroundColor Sample.array_of_white)
                Sample.webApp_instance)
  /\ state_after (WebApp.set_backgroundColor Sample.array_of_white)
                 Sample.webApp_instance
     = Sample.webApp_instance.
Proof.
  assert (H : ~ Spec.is_string Sample.array_of_white).
  { intros [s Hs]. discriminate Hs. }
  split; [exact H |].
  destruct (proj1 (webApp_color_setters Sample.array_of_white
                     Sample.webApp_instance) H) as (Ht & Hs & _).
  split; [exact Ht | exact Hs].
Defined.

Example webApp_color_setters_examples :
  WebApp.set_headerColor (VString (js "#1A2B3C")) Sample.webApp_instance
  = (inr tt,
     {| WebApp._webApp :=
          Host.WebApp.set_headerColor (VString (js "#1A2B3C"))
            (WebApp._webApp Sample.webApp_instance);
        WebApp._initData := VString (js "stale") |})
  /\ WebApp.set_headerColor (VString (js "red")) Sample.webApp_instance
     = (inl (ValueError "LTelegram: Invalid hex color value"),
        Sample.webApp_instance)
  /\ WebApp.set_headerColor VNull Sample.webApp_instance
     = (inl (TypeError "LTelegram: value must be a string"),
        Sample.webApp_instance).
Proof. repeat split. Qed.

End WebAppProperties.

(* ================================================================== *)
(** * [MainButton]: the two colors *)
(* ================================================================== *)

Section MainButtonColors.
Import JS Errors Eff.

(** C7 at the array [['#ffffff']].  It is not a string; its string
    conversion is [#ffffff], so the test of the pattern succeeds, no
    error is raised and the array itself becomes the host's color, or
    text color. *)
Lemma mainButton_color_accepts_array :
  ~ Spec.is_string Sample.array_of_white
  /\ ~ Spec.value_error
         (outcome (MainButton.set_color Sample.array_of_white)
                  Sample.mainButton_instance)
  /\ MainButton.set_color Sample.array_of_white Sample.mainButton_instance
     = (inr tt,
        {| MainButton._mainButton :=
             Host.MainButton.set_color Sample.array_of_white
                                       Sample.mainButton |})
  /\ MainButton.set_textColor Sample.array_of_white Sample.mainButton_instance
     = (inr tt,
        {| MainButton._mainButton :=
             Host.MainButton.set_textColor Sample.array_of_white
                                           Sample.mainButton |}).
Proof.
  split; [| split; [| split]].
  - intros [s Hs]. discriminate Hs.
  - intros [message H]. discriminate H.
  - reflexivity.
  - reflexivity.
Qed.

(** A matching string is stored; a malformed one is refused. *)
Example mainButton_color_setters_examples :
  MainButton.set_color (VString (js "#1A2B3C")) Sample.mainButton_instance
  = (inr tt,
     {| MainButton._mainButton :=
          Host.MainButton.set_color (VString (js "#1A2B3C"))
                                    Sample.mainButton |})
  /\ MainButton.set_textColor (VString (js "#fff")) Sample.mainButton_instance
     = (inl (ValueError "LTelegram: Invalid hex color value"),
        Sample.mainButton_instance)
  /\ MainButton.set_color VUndefined Sample.mainButton_instance
     = (inl (ValueError "LTelegram: Invalid hex color value"),
        Sample.mainButton_instance).
Proof. repeat split. Qed.

End MainButtonColors.

(* ================================================================== *)
(** * Construction *)
(* ================================================================== *)

Section Construction.
Import JS Errors Eff.

(** C8.  On a page that offers a main button, the constructor returns an
    instance, and the host's main button is then visible whatever its
    [isVisible] was; nothing else of the button has changed. *)
Theorem constructor_shows_mainButton
        (g : Host.global) (button : Host.MainButton.t) :
  Spec.main_button g = Some button ->
  exists this,
    MainButton.constructor g = inr this
    /\ Host.MainButton.isVisible (MainButton._mainButton this) = VBool true
    /\ outcome MainButton.get_isVisible this = inr (VBool true)
    /\ MainButton._mainButton this
       = Host.MainButton.set_isVisible (VBool true) button.
Proof.
  intros H. unfold Spec.main_button in H.
  destruct g as [tg |]; [| discriminate].
  unfold MainButton.constructor.
  destruct (Host.WebApp tg) as [wa |]; [| discriminate].
  rewrite H. eexists. repeat split.
Qed.

(** The sample main button is hidden when the page loads and visible
    once the wrapper is constructed. *)
Lemma constructor_shows_mainButton_witness :
  Host.MainButton.isVisible Sample.mainButton = VBool false
  /\ Spec.main_button Sample.page = Some Sample.mainButton
  /\ exists this,
       MainButton.constructor Sample.page = inr this
       /\ Host.MainButton.isVisible (MainButton._mainButton this) = VBool true
       /\ outcome MainButton.get_isVisible this = inr (VBool true)
       /\ MainButton._mainButton this
          = Host.MainButton.set_isVisible (VBool true) Sample.mainButton.
Proof.
  split; [reflexivity |].
  split; [reflexivity |].
  exact (constructor_shows_mainButton Sample.page eq_refl).
Defined.

(** C9.  A constructor raises the construction error when a level it
    checks is missing: [Telegram], [Telegram.WebApp] or the button for
    the two buttons, [Telegram] or [Telegram.WebApp] for [WebApp].  No
    instance exists then, so no method can be called.  [WebApp] checks
    nothing below [Telegram.WebApp]: with those two levels present it
    returns an instance, whatever the two button objects are. *)
Theorem constructors_check_the_chain (g : Host.global) :
  (Spec.no_Telegram g \/ Spec.no_WebApp g \/ Spec.no_BackButton g ->
   Spec.construction_error (BackButton.constructor g))
  /\ (Spec.no_Telegram g \/ Spec.no_WebApp g \/ Spec.no_MainButton g ->
      Spec.construction_error (MainButton.constructor g))
  /\ (Spec.no_Telegram g \/ Spec.no_WebApp g ->
      Spec.construction_error (WebApp.constructor g))
  /\ (forall Telegram WebApp,
         g = Some Telegram -> Host.WebApp Telegram = Some WebApp ->
         WebApp.constructor g
         = inr {| WebApp._webApp := WebApp;
                  WebApp._initData :=
                    VString (Host.WebApp.initData WebApp) |}).
Proof.
  unfold Spec.no_Telegram, Spec.no_WebApp, Spec.no_BackButton,
    Spec.no_MainButton, Spec.construction_error.
  split; [| split; [| split]].
  - intros [-> | [(tg & -> & Hwa) | (tg & wa & -> & Hwa & Hb)]];
      unfold BackButton.constructor; [| rewrite Hwa | rewrite Hwa, Hb];
      eexists; reflexivity.
  - intros [-> | [(tg & -> & Hwa) | (tg & wa & -> & Hwa & Hb)]];
      unfold MainButton.constructor; [| rewrite Hwa | rewrite Hwa, Hb];
      eexists; reflexivity.
  - intros [-> | (tg & -> & Hwa)];
      unfold WebApp.constructor; [| rewrite Hwa]; eexists; reflexivity.
  - intros tg wa -> Hwa. unfold WebApp.constructor. rewrite Hwa. reflexivity.
Qed.

(** On the page whose [WebApp] has no button, the two button wrappers
    cannot be constructed and [WebApp] can. *)
Lemma constructors_check_the_chain_witness :
  Spec.no_BackButton Sample.page_without_buttons
  /\ Spec.no_MainButton Sample.page_without_buttons
  /\ Spec.construction_error
       (BackButton.constructor Sample.page_without_buttons)
  /\ Spec.construction_error
       (MainButton.constructor Sample.page_without_buttons)
  /\ WebApp.constructor Sample.page_without_buttons
     = inr {| WebApp._webApp := Sample.webApp None None;
              WebApp._initData := VString (js "query_id=AAE&user=42") |}.
Proof.
  assert (Hb : Spec.no_BackButton Sample.page_without_buttons).
  { eexists. eexists. repeat split. }
  assert (Hm : Spec.no_MainButton Sample.page_without_buttons).
  { eexists. eexists. repeat split. }
  destruct (constructors_check_the_chain Sample.page_without_buttons)
    as (Hback & Hmain & _ & Hweb).
  split; [exact Hb |].
  split; [exact Hm |].
  split; [exact (Hback (or_intror (or_intror Hb))) |].
  split; [exact (Hmain (or_intror (or_intror Hm))) |].
  exact (Hweb _ _ eq_refl eq_refl).
Defined.

(** The three errors of a button constructor, level by level. *)
Example constructor_messages :
  BackButton.constructor None
  = inl (Error "LTelegram: Telegram is not defined.")
  /\ BackButton.constructor Sample.page_without_WebApp
     = inl (Error "LTelegram: Telegram.WebApp is not defined.")
  /\ BackButton.constructor Sample.page_without_buttons
     = inl (Error "LTelegram: Telegram.WebApp.BackButton is not defined.")
  /\ MainButton.constructor Sample.page_without_buttons
     = inl (Error "LTelegram: Telegram.WebApp.MainButton is not defined.")
  /\ WebApp.constructor Sample.page_without_WebApp
     = inl (Error "LTelegram: Telegram.WebApp is not defined.").
Proof. repeat split. Qed.

End Construction.

(* ================================================================== *)
(** * [onceClick] *)
(* ================================================================== *)

Section OnceClick.
Import JS Errors Eff.

(** Removing a [handleClick] registered after client functions gives the
    client functions back. *)
Lemma off_handleClick (fs : list Fn.t) (n : nat) (callback : Fn.t) :
  forallb Spec.is_client fs = true ->
  Host.Events.off (Fn.HandleClick n callback)
                  (fs ++ [Fn.HandleClick n callback])
  = fs.
Proof.
  intros H. unfold Host.Events.off.
  induction fs as [| f fs IH]; simpl.
  - rewrite Nat.eqb_refl. reflexivity.
  - simpl in H. apply andb_true_iff in H as [Hf Hfs].
    destruct f; [| discriminate]. simpl. f_equal. apply IH, Hfs.
Qed.

(** A click on client functions only: by induction on the registered
    list, each call adding its function to the ones called. *)
Ltac click_clients fs :=
  let f := fresh "f" in
  let IH := fresh "IH" in
  let H := fresh "H" in
  let Hf := fresh "Hf" in
  let Hfs := fresh "Hfs" in
  induction fs as [| f fs IH]; intros H this n done; simpl;
  [ rewrite app_nil_r; reflexivity
  | simpl in H; apply andb_true_iff in H as [Hf Hfs];
    destruct f as [id [e |] |]; try discriminate;
    unfold state_after at 2; simpl;
    rewrite IH by exact Hfs; simpl; rewrite <- app_assoc; reflexivity ].

(** A click on client functions only calls each of them, in order, and
    leaves the button as it was. *)
Lemma backButton_click_clients (fs : list Fn.t) :
  forallb Spec.is_client fs = true ->
  forall (this : BackButton.t) (n : nat) (done : list nat),
    fold_left (fun w f => state_after (BackButton.call f) w) fs
              {| Runtime.this := this; Runtime.closures := n;
                 Runtime.invoked := done |}
    = {| Runtime.this := this; Runtime.closures := n;
         Runtime.invoked := done ++ Spec.ids fs |}.
Proof. click_clients fs. Qed.

Lemma mainButton_click_clients (fs : list Fn.t) :
  forallb Spec.is_client fs = true ->
  forall (this : MainButton.t) (n : nat) (done : list nat),
    fold_left (fun w f => state_after (MainButton.call f) w) fs
              {| Runtime.this := this; Runtime.closures := n;
                 Runtime.invoked := done |}
    = {| Runtime.this := this; Runtime.closures := n;
         Runtime.invoked := done ++ Spec.ids fs |}.
Proof. click_clients fs. Qed.

(** A callback that returns: next to any client functions registered on
    the back button, the first click calls it once, after them, and
    removes [handleClick]; the second click calls the client functions
    only. *)
Lemma backButton_onceClick_returning
      (w : Runtime.t BackButton.t) (id : nat) :
  let fs := Spec.backButton_handlers w in
  let w1 := state_after (BackButton.onceClick (Fn.Client id None)) w in
  let w2 := BackButton.click w1 in
  let w3 := BackButton.click w2 in
  forallb Spec.is_client fs = true ->
  Spec.backButton_handlers w1
  = fs ++ [Fn.HandleClick (Runtime.closures w) (Fn.Client id None)]
  /\ Runtime.invoked w2 = Runtime.invoked w ++ Spec.ids fs ++ [id]
  /\ Spec.backButton_handlers w2 = fs
  /\ Runtime.invoked w3 = Runtime.invoked w2 ++ Spec.ids fs
  /\ Spec.backButton_handlers w3 = fs.
Proof.
  destruct w as [[[visible fs calls]] n done].
  unfold Spec.backButton_handlers. simpl. intros H.
  unfold BackButton.click, state_after, BackButton.onceClick, bind,
    Runtime.new_handleClick, Runtime.lift, BackButton.onClick,
    BackButton.on_backButton, modify. simpl.
  unfold Host.Events.on.
  split; [reflexivity |].
  rewrite fold_left_app, backButton_click_clients by exact H. simpl.
  unfold state_after, bind, Runtime.call_client, Runtime.lift,
    BackButton.offClick, BackButton.on_backButton, modify. simpl.
  rewrite off_handleClick by exact H. simpl.
  rewrite backButton_click_clients by exact H. simpl.
  rewrite <- app_assoc. repeat split.
Qed.

(** The same on the main button. *)
Lemma mainButton_onceClick_returning
      (w : Runtime.t MainButton.t) (id : nat) :
  let fs := Spec.mainButton_handlers w in
  let w1 := state_after (MainButton.onceClick (Fn.Client id None)) w in
  let w2 := MainButton.click w1 in
  let w3 := MainButton.click w2 in
  forallb Spec.is_client fs = true ->
  Spec.mainButton_handlers w1
  = fs ++ [Fn.HandleClick (Runtime.closures w) (Fn.Client id None)]
  /\ Runtime.invoked w2 = Runtime.invoked w ++ Spec.ids fs ++ [id]
  /\ Spec.mainButton_handlers w2 = fs
  /\ Runtime.invoked w3 = Runtime.invoked w2 ++ Spec.ids fs
  /\ Spec.mainButton_handlers w3 = fs.
Proof.
  destruct w as [[[t c tc visible active progress fs calls]] n done].
  unfold Spec.mainButton_handlers. simpl. intros H.
  unfold MainButton.click, state_after, MainButton.onceClick, bind,
    Runtime.new_handleClick, Runtime.lift, MainButton.onClick,
    MainButton.on_mainButton, modify. simpl.
  unfold Host.Events.on.
  split; [reflexivity |].
  rewrite fold_left_app, mainButton_click_clients by exact H. simpl.
  unfold state_after, bind, Runtime.call_client, Runtime.lift,
    MainButton.offClick, MainButton.on_mainButton, modify. simpl.
  rewrite off_handleClick by exact H. simpl.
  rewrite mainButton_click_clients by exact H. simpl.
  rewrite <- app_assoc. repeat split.
Qed.

(** C4 at a callback that throws.  [handleClick] calls the callback
    first and removes itself afterwards, so the exception skips the
    removal: after the first click [handleClick] is still registered, and
    the second click calls the callback again. *)
Theorem onceClick_throwing_callback_runs_again :
  let back :=
    state_after (BackButton.onceClick Sample.throwing)
                (Sample.start Sample.backButton_instance) in
  let main :=
    state_after (MainButton.onceClick Sample.throwing)
                (Sample.start Sample.mainButton_instance) in
  Spec.backButton_handlers (BackButton.click back)
  = [Fn.HandleClick 0 Sample.throwing]
  /\ Runtime.invoked (BackButton.click back) = [7]
  /\ Runtime.invoked (BackButton.click (BackButton.click back)) = [7; 7]
  /\ Spec.mainButton_handlers (MainButton.click main)
     = [Fn.HandleClick 0 Sample.throwing]
  /\ Runtime.invoked (MainButton.click main) = [7]
  /\ Runtime.invoked (MainButton.click (MainButton.click main)) = [7; 7].
Proof.
  cbv zeta. repeat split.
Qed.

(** The same scenario with a callback that returns: one call, and
    nothing registered afterwards. *)
Example onceClick_returning_callback_runs_once :
  let back :=
    state_after (BackButton.onceClick Sample.returning)
                (Sample.start Sample.backButton_instance) in
  Spec.backButton_handlers (BackButton.click back) = []
  /\ Runtime.invoked (BackButton.click back) = [7]
  /\ Runtime.invoked (BackButton.click (BackButton.click back)) = [7].
Proof.
  cbv zeta. repeat split.
Qed.

End OnceClick.

(* ================================================================== *)
(** * Assignments and what they leave alone *)
(* ================================================================== *)

Section Assignments.
Import JS Errors Eff.
Local Open Scope eff_scope.

Lemma typeof_is_string (v : value) :
  (typeof v !== "string"%string) = false -> Spec.is_string v.
Proof. destruct v; try discriminate. intros _. eexists. reflexivity. Qed.

Lemma typeof_is_boolean (v : value) :
  (typeof v !== "boolean"%string) = false -> Spec.is_boolean v.
Proof. destruct v; try discriminate. intros _. eexists. reflexivity. Qed.

(** One guarded assignment: the guard decides between the write and the
    exception. *)
Lemma guarded_cases {St : Type} (c : bool) (e : exn) (f : St -> St) (s : St) :
  (c = false /\ Eff.bind (throw_if c e) (fun _ => modify f) s = (inr tt, f s))
  \/ (c = true /\ Eff.bind (throw_if c e) (fun _ => modify f) s = (inl e, s)).
Proof. destruct c; [right | left]; split; reflexivity. Qed.

(** An assignment to a property of [MainButton] either writes the
    property on the host's button or throws one of the two errors and
    writes nothing. *)
Lemma main_set_cases (p : Api.main_property) (v : value)
      (this : MainButton.t) :
  (Api.main_accepts p v
   /\ Api.main_set p v this
      = (inr tt,
         {| MainButton._mainButton :=
              Api.main_write p v (MainButton._mainButton this) |}))
  \/ (~ Api.main_accepts p v
      /\ exists e,
          Api.main_set p v this = (inl e, this)
          /\ (Spec.type_error (inl e) \/ Spec.value_error (inl e))).
Proof.
  destruct p; simpl;
    unfold MainButton.set_text, MainButton.set_color,
      MainButton.set_textColor, MainButton.set_isVisible,
      MainButton.set_isActive, MainButton.set_isProgressVisible,
      MainButton.on_mainButton;
    match goal with
    | |- context [Eff.bind (throw_if ?c ?e) (fun _ => modify ?f) this] =>
        destruct (guarded_cases c e f this) as [[Hc ->] | [Hc ->]]
    end.
  all: try (left; split; [| reflexivity]).
  all: try (right; split;
            [| eexists; split;
               [reflexivity
               | first [left; eexists; reflexivity
                       | right; eexists; reflexivity]]]).
  all: try (apply typeof_is_string, Hc).
  all: try (apply typeof_is_boolean, Hc).
  all: try (apply typeof_not_string, Hc).
  all: try (apply typeof_not_boolean, Hc).
  all: try (apply (proj1 (isValidHexColor_ToString v));
            apply negb_false_iff, Hc).
  all: apply (proj1 (isValidHexColor_false v)); apply negb_true_iff, Hc.
Qed.

(** X5.  Assigning an accepted value to a property of [MainButton] makes
    the getter of that property return it; assigning any other value
    throws a type or a value error and leaves the state as it was.  In
    both cases every other property reads as before, and the registered
    callbacks and the calls the host received are the same. *)
Theorem main_property_assignment
        (p : Api.main_property) (v : value) (this : MainButton.t) :
  (Api.main_accepts p v ->
   outcome (Api.main_set p v) this = inr tt
   /\ outcome (Api.main_get p) (state_after (Api.main_set p v) this) = inr v)
  /\ (~ Api.main_accepts p v ->
      (Spec.type_error (outcome (Api.main_set p v) this)
       \/ Spec.value_error (outcome (Api.main_set p v) this))
      /\ state_after (Api.main_set p v) this = this)
  /\ (forall q, q <> p ->
        outcome (Api.main_get q) (state_after (Api.main_set p v) this)
        = outcome (Api.main_get q) this)
  /\ Host.MainButton.handlers
       (MainButton._mainButton (state_after (Api.main_set p v) this))
     = Host.MainButton.handlers (MainButton._mainButton this)
  /\ Host.MainButton.calls
       (MainButton._mainButton (state_after (Api.main_set p v) this))
     = Host.MainButton.calls (MainButton._mainButton this).
Proof.
  unfold outcome, state_after.
  destruct (main_set_cases p v this) as [[Ha ->] | (Hn & e & -> & Hkind)];
    simpl.
  - split; [intros _; split; [reflexivity | destruct p; reflexivity] |].
    split; [intros Hn; contradiction |].
    split; [| split; destruct p; reflexivity].
    intros q Hq. destruct p, q; try reflexivity; contradiction Hq; reflexivity.
  - split; [intros Ha; contradiction |].
    split; [intros _; split; [exact Hkind | reflexivity] |].
    repeat split.
Qed.

(** [isActive = 'yes'] on the sample button: a type error, nothing
    written. *)
Lemma main_property_assignment_witness :
  ~ Api.main_accepts Api.mp_isActive (VString (js "yes"))
  /\ state_after (Api.main_set Api.mp_isActive (VString (js "yes")))
                 Sample.mainButton_instance
     = Sample.mainButton_instance.
Proof.
  assert (H : ~ Api.main_accepts Api.mp_isActive (VString (js "yes"))).
  { intros [b Hb]. discriminate Hb. }
  split; [exact H |].
  exact (proj2 (proj1 (proj2 (main_property_assignment
                                Api.mp_isActive (VString (js "yes"))
                                Sample.mainButton_instance)) H)).
Defined.

(** An assignment to a validated property of [WebApp]. *)
Lemma web_set_cases (p : Api.web_property) (v : value) (this : WebApp.t) :
  (Api.web_accepts p v
   /\ Api.web_set p v this
      = (inr tt,
         {| WebApp._webApp := Api.web_write p v (WebApp._webApp this);
            WebApp._initData := WebApp._initData this |}))
  \/ (~ Api.web_accepts p v
      /\ exists e,
          Api.web_set p v this = (inl e, this)
          /\ (Spec.type_error (inl e) \/ Spec.value_error (inl e))).
Proof.
  destruct p; simpl;
    unfold WebApp.set_backgroundColor, WebApp.set_headerColor,
      WebApp.set_isClosingConfirmationEnabled,
      WebApp.set_isVerticalSwipesEnabled, WebApp.on_webApp.
  1, 2: destruct (typeof v !== "string"%string) eqn:Hty;
    [ right; split;
      [ intros (s & -> & _); discriminate Hty
      | eexists; split; [reflexivity | left; eexists; reflexivity] ]
    | destruct (typeof_is_string _ Hty) as [s ->];
      destruct (WebApp.isValidHexColor (VString s)) eqn:Hhex;
      [ left; split; [| reflexivity];
        exists s; split; [reflexivity |];
        apply (proj2 (isValidHexColor_ToString (VString s))), Hhex
      | right; split;
        [ intros (s' & Hs & Hc); injection Hs as <-;
          apply (proj2 (isValidHexColor_false (VString s))) in Hhex;
          exact (Hhex Hc)
        | eexists; split; [reflexivity | right; eexists; reflexivity] ] ] ].
  all: destruct (typeof v !== "boolean"%string) eqn:Hty;
    [ right; split;
      [ apply typeof_not_boolean, Hty
      | eexists; split; [reflexivity | left; eexists; reflexivity] ]
    | left; split; [ apply typeof_is_boolean, Hty | reflexivity ] ].
Qed.

(** X6.  Assigning a hex-color string to [backgroundColor] or
    [headerColor], or a boolean to one of the two flags of [WebApp],
    makes the getter return it; any other value throws a type or a value
    error and leaves the state as it was.  In both cases the other three
    properties, the eight read-only getters and [initData] read as
    before. *)
Theorem web_property_assignment
        (p : Api.web_property) (v : value) (this : WebApp.t) :
  (Api.web_accepts p v ->
   outcome (Api.web_set p v) this = inr tt
   /\ outcome (Api.web_get p) (state_after (Api.web_set p v) this) = inr v)
  /\ (~ Api.web_accepts p v ->
      (Spec.type_error (outcome (Api.web_set p v) this)
       \/ Spec.value_error (outcome (Api.web_set p v) this))
      /\ state_after (Api.web_set p v) this = this)
  /\ (forall q, q <> p ->
        outcome (Api.web_get q) (state_after (Api.web_set p v) this)
        = outcome (Api.web_get q) this)
  /\ (forall getter, In getter Api.web_readonly ->
        outcome getter (state_after (Api.web_set p v) this)
        = outcome getter this)
  /\ outcome WebApp.get_initData (state_after (Api.web_set p v) this)
     = outcome WebApp.get_initData this.
Proof.
  unfold outcome, state_after.
  destruct (web_set_cases p v this) as [[Ha ->] | (Hn & e & -> & Hkind)];
    simpl.
  - split; [intros _; split; [reflexivity | destruct p; reflexivity] |].
    split; [intros Hn; contradiction |].
    split; [| split; [| reflexivity]].
    + intros q Hq.
      destruct p, q; try reflexivity; contradiction Hq; reflexivity.
    + intros getter Hg. unfold Api.web_readonly in Hg. simpl in Hg.
      repeat (destruct Hg as [<- | Hg]; [destruct p; reflexivity |]).
      destruct Hg.
  - split; [intros Ha; contradiction |].
    split; [intros _; split; [exact Hkind | reflexivity] |].
    repeat split.
Qed.

(** [headerColor = '#fff'] on the sample instance: a value error, nothing
    written. *)
Lemma web_property_assignment_witness :
  ~ Api.web_accepts Api.wp_headerColor (VString (js "#fff"))
  /\ Spec.value_error
       (outcome (Api.web_set Api.wp_headerColor (VString (js "#fff")))
                Sample.webApp_instance)
  /\ state_after (Api.web_set Api.wp_headerColor (VString (js "#fff")))
                 Sample.webApp_instance
     = Sample.webApp_instance.
Proof.
  assert (H : ~ Api.web_accepts Api.wp_headerColor (VString (js "#fff"))).
  { intros (s & Hs & digits & Hd & Hlen & _).
    injection Hs as <-. injection Hd as <-. discriminate Hlen. }
  split; [exact H |].
  destruct (proj1 (proj2 (web_property_assignment
                            Api.wp_headerColor (VString (js "#fff"))
                            Sample.webApp_instance)) H) as [Hkind Hstate].
  split; [| exact Hstate].
  destruct Hkind as [[m Hm] | Hv]; [discriminate Hm | exact Hv].
Defined.

End Assignments.

(* ================================================================== *)
(** * The validator off the strings *)
(* ================================================================== *)

Section PlainValues.
Import JS Errors Eff.

(** A number never prints with [#] in front. *)
Lemma number_not_hash (z : Z) (digits : jsstring) :
  ToString (VNumber z) <> code "#" :: digits.
Proof.
  unfold ToString, NilZero.string_of_int, NilZero.string_of_uint.
  destruct (Z.to_int z) as [d | d]; destruct d; simpl; discriminate.
Qed.

Lemma primitive_not_hex_color (v : value) :
  Api.primitive v -> ~ Spec.hex_color (ToString v).
Proof.
  intros Hv (digits & Hs & _).
  destruct v as [| | [|] | z | s | elems |]; simpl in Hv; try contradiction;
    try discriminate Hs.
  exact (number_not_hash _ Hs).
Qed.

(** X9.  [undefined], [null], a boolean and a number are never hex colors
    for either validator: none of them prints with [#] in front.  So the
    [color] and [textColor] setters of [MainButton] refuse each of them
    with a value error and write nothing. *)
Theorem primitives_are_no_colors (v : value) (this : MainButton.t) :
  Api.primitive v ->
  MainButton.isValidHexColor v = false
  /\ WebApp.isValidHexColor v = false
  /\ MainButton.set_color v this
     = (inl (ValueError "LTelegram: Invalid hex color value"), this)
  /\ MainButton.set_textColor v this
     = (inl (ValueError "LTelegram: Invalid hex color value"), this).
Proof.
  intros Hv. apply primitive_not_hex_color in Hv.
  pose proof (proj2 (proj1 (isValidHexColor_false v)) Hv) as Hm.
  pose proof (proj2 (proj2 (isValidHexColor_false v)) Hv) as Hw.
  unfold MainButton.set_color, MainButton.set_textColor.
  rewrite Hm, Hw. repeat split.
Qed.

(** The number [-255] is refused as a color. *)
Lemma primitives_are_no_colors_witness :
  Api.primitive (VNumber (-255))
  /\ MainButton.set_color (VNumber (-255)) Sample.mainButton_instance
     = (inl (ValueError "LTelegram: Invalid hex color value"),
        Sample.mainButton_instance).
Proof.
  split; [exact I |].
  exact (proj1 (proj2 (proj2 (@primitives_are_no_colors
                                 (VNumber (-255)) Sample.mainButton_instance
                                 I)))).
Defined.

End PlainValues.

(* ================================================================== *)
(** * [setParams] against the property setters *)
(* ================================================================== *)

Section SetParamsAndSetters.
Import JS Errors Eff.

(** The setter of a field succeeds on the values that pass the rule of
    the field and throws an error of the kind of the field on the
    others. *)
Lemma setter_of_passes (f : Spec.field) (v : value) (this : MainButton.t) :
  (Spec.passes f v = true -> outcome (Api.setter_of f v) this = inr tt)
  /\ (Spec.passes f v = false ->
      exists e, outcome (Api.setter_of f v) this = inl e
                /\ name e = name (Spec.error_of f)).
Proof.
  unfold outcome.
  destruct f; simpl;
    unfold MainButton.set_text, MainButton.set_color,
      MainButton.set_textColor, MainButton.set_isActive,
      MainButton.set_isVisible.
  2, 3: destruct (MainButton.isValidHexColor v); simpl;
    split; intros H; try discriminate H;
    first [reflexivity | eexists; split; reflexivity].
  all: destruct v; simpl;
    split; intros H; try discriminate H;
    first [reflexivity | eexists; split; reflexivity].
Qed.

(** X7.  [setParams] accepts an object exactly when each of its defined
    fields would be accepted by the setter of the matching property, and
    when it refuses one, on its first violating field, the error has the
    name of the error that setter throws on the field's value. *)
Theorem setParams_agrees_with_setters
        (p : MainButtonParams) (this : MainButton.t) :
  (outcome (MainButton.setParams p) this = inr tt
   <-> forall f, is_defined (Spec.field_value f p) = true ->
                 outcome (Api.setter_of f (Spec.field_value f p)) this
                 = inr tt)
  /\ (forall f, Spec.first_violation p = Some f ->
        exists e e',
          outcome (MainButton.setParams p) this = inl e
          /\ outcome (Api.setter_of f (Spec.field_value f p)) this = inl e'
          /\ name e = name e').
Proof.
  unfold outcome at 1 3. rewrite setParams_first_violation. split.
  - split.
    + intros H f Hdef.
      destruct (Spec.first_violation p) eqn:Hfirst; [discriminate H |].
      pose proof (proj1 (first_violation_None p) Hfirst f) as Hf.
      unfold Spec.violates in Hf. rewrite Hdef in Hf. simpl in Hf.
      apply negb_false_iff in Hf.
      exact (proj1 (setter_of_passes f _ this) Hf).
    + intros H.
      assert (Hnone : Spec.first_violation p = None).
      { apply first_violation_None. intros f. unfold Spec.violates.
        destruct (is_defined (Spec.field_value f p)) eqn:Hdef;
          [| reflexivity].
        simpl. apply negb_false_iff.
        destruct (Spec.passes f (Spec.field_value f p)) eqn:Hp;
          [reflexivity |].
        destruct (proj2 (setter_of_passes f _ this) Hp) as (e & He & _).
        rewrite (H f Hdef) in He. discriminate He. }
      rewrite Hnone. reflexivity.
  - intros f Hf. rewrite Hf. simpl.
    apply first_violation_Some in Hf. unfold Spec.violates in Hf.
    apply andb_true_iff in Hf as [_ Hp]. apply negb_true_iff in Hp.
    destruct (proj2 (setter_of_passes f _ this) Hp) as (e' & He' & Hname).
    exists (Spec.error_of f), e'. repeat split; auto.
Qed.

(** [{ text: 123, color: '#00ff00' }]: refused on text, as [text = 123]
    is. *)
Lemma setParams_agrees_with_setters_witness :
  Spec.first_violation Sample.params_text_123 = Some Spec.f_text
  /\ exists e e',
       outcome (MainButton.setParams Sample.params_text_123)
               Sample.mainButton_instance = inl e
       /\ outcome (MainButton.set_text (VNumber 123))
                  Sample.mainButton_instance = inl e'
       /\ name e = name e'.
Proof.
  split; [reflexivity |].
  exact (proj2 (setParams_agrees_with_setters
                  Sample.params_text_123 Sample.mainButton_instance)
               Spec.f_text eq_refl).
Defined.

End SetParamsAndSetters.

(* ================================================================== *)
(** * More on [onceClick] *)
(* ================================================================== *)

Section OnceClickMore.
Import JS Errors Eff.

(** X1.  [onceClick] with a callback that returns, on either button and
    next to any client functions already registered: the first click
    calls the callback once, after them, and [handleClick] is gone; the
    second click calls the client functions only. *)
Theorem onceClick_fires_once (id : nat) :
  (forall w : Runtime.t BackButton.t,
      forallb Spec.is_client (Spec.backButton_handlers w) = true ->
      let w1 := state_after (BackButton.onceClick (Fn.Client id None)) w in
      Runtime.invoked (BackButton.click w1)
      = Runtime.invoked w ++ Spec.ids (Spec.backButton_handlers w) ++ [id]
      /\ Spec.backButton_handlers (BackButton.click w1)
         = Spec.backButton_handlers w
      /\ Runtime.invoked (BackButton.click (BackButton.click w1))
         = Runtime.invoked (BackButton.click w1)
           ++ Spec.ids (Spec.backButton_handlers w))
  /\ (forall w : Runtime.t MainButton.t,
         forallb Spec.is_client (Spec.mainButton_handlers w) = true ->
         let w1 := state_after (MainButton.onceClick (Fn.Client id None)) w in
         Runtime.invoked (MainButton.click w1)
         = Runtime.invoked w ++ Spec.ids (Spec.mainButton_handlers w) ++ [id]
         /\ Spec.mainButton_handlers (MainButton.click w1)
            = Spec.mainButton_handlers w
         /\ Runtime.invoked (MainButton.click (MainButton.click w1))
            = Runtime.invoked (MainButton.click w1)
              ++ Spec.ids (Spec.mainButton_handlers w)).
Proof.
  split; intros w H.
  - destruct (backButton_onceClick_returning w id H)
      as (_ & H2 & H3 & H4 & _).
    cbv zeta. auto.
  - destruct (mainButton_onceClick_returning w id H)
      as (_ & H2 & H3 & H4 & _).
    cbv zeta. auto.
Qed.

(** On the sample back button: one call, then none. *)
Lemma onceClick_fires_once_witness :
  forallb Spec.is_client
          (Spec.backButton_handlers (Sample.start Sample.backButton_instance))
  = true
  /\ Runtime.invoked
       (BackButton.click
          (BackButton.click
             (state_after (BackButton.onceClick (Fn.Client 7 None))
                          (Sample.start Sample.backButton_instance))))
     = [7].
Proof.
  split; [reflexivity |].
  destruct (proj1 (onceClick_fires_once 7)
                  (Sample.start Sample.backButton_instance) eq_refl)
    as (H1 & _ & H3).
  rewrite H3, H1. reflexivity.
Defined.

(** Removing a client function leaves client functions. *)
Lemma off_clients (f : Fn.t) (fs : list Fn.t) :
  forallb Spec.is_client fs = true ->
  forallb Spec.is_client (Host.Events.off f fs) = true.
Proof.
  unfold Host.Events.off. induction fs as [| g fs IH]; simpl; [auto |].
  intros H. apply andb_true_iff in H as [Hg Hfs].
  destruct (negb (Fn.same f g)); simpl; [rewrite Hg |]; auto.
Qed.

(** Removing a client function does not remove a [handleClick]. *)
Lemma off_client_keeps_handleClick
      (id : nat) (result : option exn) (fs : list Fn.t) (h : Fn.t) :
  Spec.is_client h = false ->
  Host.Events.off (Fn.Client id result) (fs ++ [h])
  = Host.Events.off (Fn.Client id result) fs ++ [h].
Proof.
  intros Hh. unfold Host.Events.off. rewrite filter_app. simpl.
  destruct h; [discriminate Hh | reflexivity].
Qed.

(** X2.  [offClick(callback)] does not undo [onceClick(callback)]: what
    [onceClick] registered is [handleClick], another function.  After
    both calls [handleClick] is still the last registered callback, and
    the next click calls the callback. *)
Theorem offClick_does_not_cancel_onceClick
        (id : nat) (result : option exn) :
  let callback := Fn.Client id result in
  (forall w : Runtime.t BackButton.t,
      let w2 :=
        state_after (Runtime.lift (BackButton.offClick callback))
                    (state_after (BackButton.onceClick callback) w) in
      Spec.backButton_handlers w2
      = Host.Events.off callback (Spec.backButton_handlers w)
        ++ [Fn.HandleClick (Runtime.closures w) callback]
      /\ (forallb Spec.is_client (Spec.backButton_handlers w) = true ->
          Runtime.invoked (BackButton.click w2)
          = Runtime.invoked w
            ++ Spec.ids (Host.Events.off callback (Spec.backButton_handlers w))
            ++ [id]))
  /\ (forall w : Runtime.t MainButton.t,
         let w2 :=
           state_after (Runtime.lift (MainButton.offClick callback))
                       (state_after (MainButton.onceClick callback) w) in
         Spec.mainButton_handlers w2
         = Host.Events.off callback (Spec.mainButton_handlers w)
           ++ [Fn.HandleClick (Runtime.closures w) callback]
         /\ (forallb Spec.is_client (Spec.mainButton_handlers w) = true ->
             Runtime.invoked (MainButton.click w2)
             = Runtime.invoked w
               ++ Spec.ids
                    (Host.Events.off callback (Spec.mainButton_handlers w))
               ++ [id])).
Proof.
  cbv zeta. split.
  - intros [[[visible fs calls]] n done].
    unfold Spec.backButton_handlers, state_after, BackButton.onceClick, bind,
      Runtime.new_handleClick, Runtime.lift, BackButton.onClick,
      BackButton.offClick, BackButton.on_backButton, modify,
      Host.Events.on, BackButton.click.
    simpl. rewrite off_client_keeps_handleClick by reflexivity.
    split; [reflexivity |].
    intros H. apply (off_clients (Fn.Client id result)) in H.
    rewrite fold_left_app, backButton_click_clients by exact H.
    simpl fold_left. destruct result; simpl; rewrite <- app_assoc;
      reflexivity.
  - intros [[[t c tc visible active progress fs calls]] n done].
    unfold Spec.mainButton_handlers, state_after, MainButton.onceClick, bind,
      Runtime.new_handleClick, Runtime.lift, MainButton.onClick,
      MainButton.offClick, MainButton.on_mainButton, modify,
      Host.Events.on, MainButton.click.
    simpl. rewrite off_client_keeps_handleClick by reflexivity.
    split; [reflexivity |].
    intros H. apply (off_clients (Fn.Client id result)) in H.
    rewrite fold_left_app, mainButton_click_clients by exact H.
    simpl fold_left. destruct result; simpl; rewrite <- app_assoc;
      reflexivity.
Qed.

(** On the sample main button: registered once, removed by name, and
    still called by the click. *)
Lemma offClick_does_not_cancel_onceClick_witness :
  forallb Spec.is_client
          (Spec.mainButton_handlers (Sample.start Sample.mainButton_instance))
  = true
  /\ Runtime.invoked
       (MainButton.click
          (state_after (Runtime.lift (MainButton.offClick Sample.returning))
             (state_after (MainButton.onceClick Sample.returning)
                          (Sample.start Sample.mainButton_instance))))
     = [7].
Proof.
  split; [reflexivity |].
  exact (proj2 (proj2 (offClick_does_not_cancel_onceClick 7 None)
                      (Sample.start Sample.mainButton_instance))
               eq_refl).
Defined.

End OnceClickMore.

Section OnceClickTwice.
Import JS Errors Eff.
Local Arguments Host.Events.off : simpl never.

Lemma off_app (f : Fn.t) (a b : list Fn.t) :
  Host.Events.off f (a ++ b) = Host.Events.off f a ++ Host.Events.off f b.
Proof. apply filter_app. Qed.

(** Removing a [handleClick] leaves client functions alone. *)
Lemma off_handleClick_clients (n : nat) (c : Fn.t) (fs : list Fn.t) :
  forallb Spec.is_client fs = true ->
  Host.Events.off (Fn.HandleClick n c) fs = fs.
Proof.
  intros H. unfold Host.Events.off.
  induction fs as [| f fs IH]; simpl; [reflexivity |].
  simpl in H. apply andb_true_iff in H as [Hf Hfs].
  destruct f; [| discriminate]. simpl. f_equal. apply IH, Hfs.
Qed.

(** Two [handleClick] functions created by two calls of [onceClick]:
    removing one leaves the other. *)
Lemma off_handleClick_pair (n m : nat) (c : Fn.t) :
  n <> m ->
  Host.Events.off (Fn.HandleClick n c) [Fn.HandleClick n c; Fn.HandleClick m c]
  = [Fn.HandleClick m c]
  /\ Host.Events.off (Fn.HandleClick m c)
                     [Fn.HandleClick n c; Fn.HandleClick m c]
     = [Fn.HandleClick n c]
  /\ Host.Events.off (Fn.HandleClick n c) [Fn.HandleClick n c] = []
  /\ Host.Events.off (Fn.HandleClick m c) [Fn.HandleClick m c] = [].
Proof.
  intros H. unfold Host.Events.off. simpl. rewrite !Nat.eqb_refl.
  assert (H1 : Nat.eqb n m = false) by (apply Nat.eqb_neq; exact H).
  assert (H2 : Nat.eqb m n = false) by (apply Nat.eqb_neq; auto).
  rewrite H1, H2. repeat split.
Qed.

(** X3.  Two calls of [onceClick] with the same callback are two
    registrations: each creates a [handleClick] of its own.  With a
    callback that returns, whichever of the two the host calls, that call
    runs the callback once and removes that [handleClick] only, leaving
    the other registered; once the host has called both, in either
    order, the callback has run twice and neither is registered.  Nothing
    is said of how the host orders the calls within a click. *)
Theorem onceClick_twice_independent (id : nat) :
  let callback := Fn.Client id None in
  (forall w : Runtime.t BackButton.t,
      forallb Spec.is_client (Spec.backButton_handlers w) = true ->
      let first := Fn.HandleClick (Runtime.closures w) callback in
      let second := Fn.HandleClick (S (Runtime.closures w)) callback in
      let w2 :=
        state_after (BackButton.onceClick callback)
                    (state_after (BackButton.onceClick callback) w) in
      let after_first := state_after (BackButton.call first) w2 in
      let after_second := state_after (BackButton.call second) w2 in
      Spec.backButton_handlers w2 = Spec.backButton_handlers w ++ [first; second]
      /\ Spec.backButton_handlers after_first
         = Spec.backButton_handlers w ++ [second]
      /\ Runtime.invoked after_first = Runtime.invoked w ++ [id]
      /\ Spec.backButton_handlers after_second
         = Spec.backButton_handlers w ++ [first]
      /\ Runtime.invoked after_second = Runtime.invoked w ++ [id]
      /\ Spec.backButton_handlers (state_after (BackButton.call second) after_first)
         = Spec.backButton_handlers w
      /\ Runtime.invoked (state_after (BackButton.call second) after_first)
         = Runtime.invoked w ++ [id; id]
      /\ Spec.backButton_handlers (state_after (BackButton.call first) after_second)
         = Spec.backButton_handlers w
      /\ Runtime.invoked (state_after (BackButton.call first) after_second)
         = Runtime.invoked w ++ [id; id])
  /\ (forall w : Runtime.t MainButton.t,
      forallb Spec.is_client (Spec.mainButton_handlers w) = true ->
      let first := Fn.HandleClick (Runtime.closures w) callback in
      let second := Fn.HandleClick (S (Runtime.closures w)) callback in
      let w2 :=
        state_after (MainButton.onceClick callback)
                    (state_after (MainButton.onceClick callback) w) in
      let after_first := state_after (MainButton.call first) w2 in
      let after_second := state_after (MainButton.call second) w2 in
      Spec.mainButton_handlers w2 = Spec.mainButton_handlers w ++ [first; second]
      /\ Spec.mainButton_handlers after_first
         = Spec.mainButton_handlers w ++ [second]
      /\ Runtime.invoked after_first = Runtime.invoked w ++ [id]
      /\ Spec.mainButton_handlers after_second
         = Spec.mainButton_handlers w ++ [first]
      /\ Runtime.invoked after_second = Runtime.invoked w ++ [id]
      /\ Spec.mainButton_handlers (state_after (MainButton.call second) after_first)
         = Spec.mainButton_handlers w
      /\ Runtime.invoked (state_after (MainButton.call second) after_first)
         = Runtime.invoked w ++ [id; id]
      /\ Spec.mainButton_handlers (state_after (MainButton.call first) after_second)
         = Spec.mainButton_handlers w
      /\ Runtime.invoked (state_after (MainButton.call first) after_second)
         = Runtime.invoked w ++ [id; id]).
Proof.
  cbv zeta. split.
  - intros [[[visible fs calls]] n done].
    unfold Spec.backButton_handlers. simpl. intros H.
    destruct (@off_handleClick_pair n (S n) (Fn.Client id None))
      as (P1 & P2 & P3 & P4); [lia |].
    unfold state_after, BackButton.onceClick, bind,
      Runtime.new_handleClick, Runtime.lift, BackButton.onClick,
      BackButton.on_backButton, modify, Host.Events.on. simpl.
    rewrite <- !app_assoc. simpl.
    rewrite !off_app, !off_handleClick_clients by exact H.
    rewrite P1, P2, P3, P4. rewrite !app_nil_r.
    repeat split;
      rewrite ?(@off_handleClick_clients (S n) _ fs H),
        ?(@off_handleClick_clients n _ fs H); reflexivity.
  - intros [[[t c tc visible active progress fs calls]] n done].
    unfold Spec.mainButton_handlers. simpl. intros H.
    destruct (@off_handleClick_pair n (S n) (Fn.Client id None))
      as (P1 & P2 & P3 & P4); [lia |].
    unfold state_after, MainButton.onceClick, bind,
      Runtime.new_handleClick, Runtime.lift, MainButton.onClick,
      MainButton.on_mainButton, modify, Host.Events.on. simpl.
    rewrite <- !app_assoc. simpl.
    rewrite !off_app, !off_handleClick_clients by exact H.
    rewrite P1, P2, P3, P4. rewrite !app_nil_r.
    repeat split;
      rewrite ?(@off_handleClick_clients (S n) _ fs H),
        ?(@off_handleClick_clients n _ fs H); reflexivity.
Qed.

(** On the sample back button: the second [handleClick] called first
    runs the callback once and leaves the first one registered. *)
Lemma onceClick_twice_independent_witness :
  forallb Spec.is_client
          (Spec.backButton_handlers (Sample.start Sample.backButton_instance))
  = true
  /\ Spec.backButton_handlers
       (state_after
          (BackButton.call (Fn.HandleClick 1 (Fn.Client 7 None)))
          (state_after (BackButton.onceClick (Fn.Client 7 None))
             (state_after (BackButton.onceClick (Fn.Client 7 None))
                          (Sample.start Sample.backButton_instance))))
     = [Fn.HandleClick 0 (Fn.Client 7 None)].
Proof.
  split; [reflexivity |].
  destruct (proj1 (onceClick_twice_independent 7)
                  (Sample.start Sample.backButton_instance) eq_refl)
    as (_ & _ & _ & H & _).
  exact H.
Defined.

End OnceClickTwice.

(* ================================================================== *)
(** * What the wrappers keep true of the host object *)
(* ================================================================== *)

Section Invariants.
Import JS Errors Eff.
Local Open Scope eff_scope.

Lemma fold_left_invariant {A B : Type} (P : A -> Prop) (f : A -> B -> A) :
  (forall a b, P a -> P (f a b)) ->
  forall (l : list B) (a : A), P a -> P (fold_left f l a).
Proof.
  intros Hf l. induction l as [| b l IH]; intros a Ha; simpl; auto.
Qed.

Lemma lift_this {I A : Type} (m : M I A) (w : Runtime.t I) :
  Runtime.this (state_after (Runtime.lift m) w)
  = state_after m (Runtime.this w).
Proof.
  unfold state_after, Runtime.lift. destruct (m (Runtime.this w)).
  reflexivity.
Qed.

(** ** [BackButton] *)

Lemma back_call_ok (f : Fn.t) :
  forall w : Runtime.t BackButton.t,
    Api.back_ok (BackButton._backButton (Runtime.this w)) ->
    Api.back_ok
      (BackButton._backButton (Runtime.this (state_after (BackButton.call f) w))).
Proof.
  induction f as [id result | n callback IH]; intros w Hw.
  - destruct result; exact Hw.
  - specialize (IH w Hw). unfold state_after in *. simpl. unfold bind.
    destruct (BackButton.call callback w) as [[e | []] w']; simpl in *;
      exact IH.
Qed.

(** X12.  Whatever a page does with a [BackButton], in any order and
    with any arguments, assignments that throw included, and however
    often the button is clicked, the host's [isVisible] stays a boolean
    if it was one. *)
Theorem backButton_keeps_isVisible_boolean
        (ops : list Api.back_op) (w : Runtime.t BackButton.t) :
  Api.back_ok (BackButton._backButton (Runtime.this w)) ->
  Api.back_ok
    (BackButton._backButton (Runtime.this (Api.back_run ops w))).
Proof.
  unfold Api.back_run.
  apply (fold_left_invariant
           (fun w => Api.back_ok (BackButton._backButton (Runtime.this w)))).
  clear w. intros w o Hw.
  destruct o as [v | | | f | f | f |]; unfold Api.back_step.
  - rewrite lift_this. unfold BackButton.set_isVisible, state_after.
    destruct (typeof v !== "boolean"%string) eqn:Hty; simpl;
      [exact Hw | apply typeof_is_boolean, Hty].
  - rewrite lift_this. exact Hw.
  - rewrite lift_this. exact Hw.
  - rewrite lift_this. exact Hw.
  - rewrite lift_this. exact Hw.
  - exact Hw.
  - unfold BackButton.click.
    apply (fold_left_invariant
             (fun w => Api.back_ok (BackButton._backButton (Runtime.this w))));
      [| exact Hw].
    intros a f Ha. apply back_call_ok, Ha.
Qed.

(** On the sample back button: a refused assignment, a [onceClick], a
    click and an accepted assignment. *)
Lemma backButton_keeps_isVisible_boolean_witness :
  Api.back_ok Sample.backButton
  /\ Api.back_ok
       (BackButton._backButton
          (Runtime.this
             (Api.back_run
                [Api.b_set_isVisible (VNumber 1);
                 Api.b_onceClick Sample.throwing; Api.b_click;
                 Api.b_set_isVisible (VBool true)]
                (Sample.start Sample.backButton_instance)))).
Proof.
  assert (H : Api.back_ok Sample.backButton) by (eexists; reflexivity).
  split; [exact H |].
  exact (backButton_keeps_isVisible_boolean
           [Api.b_set_isVisible (VNumber 1);
            Api.b_onceClick Sample.throwing; Api.b_click;
            Api.b_set_isVisible (VBool true)]
           (Sample.start Sample.backButton_instance) H).
Defined.

(** ** [MainButton] *)

Lemma main_ok_handlers (hs : list Fn.t) (h : Host.MainButton.t) :
  Api.main_ok h -> Api.main_ok (Host.MainButton.set_handlers hs h).
Proof. intros H. exact H. Qed.







(** ** [WebApp] *)

Lemma web_ok_write (p : Api.web_property) (v : value) (this : WebApp.t) :
  Api.web_accepts p v -> Api.web_ok this ->
  Api.web_ok {| WebApp._webApp := Api.web_write p v (WebApp._webApp this);
                WebApp._initData := WebApp._initData this |}.
Proof.
  intros Hv (H1 & H2 & H3 & H4 & H5).
  destruct p; unfold Api.web_ok; simpl in *; repeat split; auto.
Qed.

(** X11.  Whatever a page assigns to the properties of a [WebApp], in
    any order, refused assignments included: the copy of [initData] stays
    a string, the two colors of the host stay hex-color strings and its
    two flags stay booleans, if they were. *)
Theorem webApp_keeps_state_well_typed
        (ops : list Api.web_op) (this : WebApp.t) :
  Api.web_ok this -> Api.web_ok (Api.web_run ops this).
Proof.
  unfold Api.web_run. apply (fold_left_invariant Api.web_ok).
  clear this. intros this o Hok. destruct o as [v | p v]; unfold Api.web_step.
  - unfold WebApp.set_initData, state_after.
    destruct Hok as (H1 & H2).
    destruct (typeof v !== "string"%string) eqn:Hty; simpl;
      (split; [| exact H2]).
    + eexists. reflexivity.
    + apply typeof_is_string, Hty.
  - unfold state_after.
    destruct (web_set_cases p v this) as [[Ha ->] | (_ & e & -> & _)];
      simpl; [| exact Hok].
    apply web_ok_write; assumption.
Qed.

Lemma sample_webApp_ok : Api.web_ok Sample.webApp_instance.
Proof.
  unfold Api.web_ok, Api.hex_color_string. simpl.
  repeat split; try (eexists; reflexivity);
    (eexists; split; [reflexivity |]);
    apply (proj1 (test_hex_color_pattern _)); reflexivity.
Qed.

(** On the sample instance: a number as [initData], the array as
    background color, a short color, a good color and a string as flag. *)
Lemma webApp_keeps_state_well_typed_witness :
  Api.web_ok Sample.webApp_instance
  /\ Api.web_ok
       (Api.web_run
          [Api.w_set_initData (VNumber 42);
           Api.w_set Api.wp_backgroundColor Sample.array_of_white;
           Api.w_set Api.wp_headerColor (VString (js "#fff"));
           Api.w_set Api.wp_headerColor (VString (js "#1A2B3C"));
           Api.w_set Api.wp_isVerticalSwipesEnabled (VString (js "no"))]
          Sample.webApp_instance).
Proof.
  split; [exact sample_webApp_ok |].
  exact (@webApp_keeps_state_well_typed
           [Api.w_set_initData (VNumber 42);
            Api.w_set Api.wp_backgroundColor Sample.array_of_white;
            Api.w_set Api.wp_headerColor (VString (js "#fff"));
            Api.w_set Api.wp_headerColor (VString (js "#1A2B3C"));
            Api.w_set Api.wp_isVerticalSwipesEnabled (VString (js "no"))]
           Sample.webApp_instance sample_webApp_ok).
Defined.

End Invariants.

(* ================================================================== *)
(** * The color setters of the two classes, side by side *)
(* ================================================================== *)

Section ColorSettersCompared.
Import JS Errors Eff.

(** X4.  On a string the color setters of [WebApp] and of [MainButton]
    take the same decision, and whatever a color setter of [WebApp]
    accepts, the one of [MainButton] accepts.  The converse fails: there
    is a value that is not a string, which [WebApp] refuses with a type
    error and [MainButton] accepts. *)
Theorem color_setters_compared
        (v : value) (web : WebApp.t) (main : MainButton.t) :
  (forall s, v = VString s ->
     (outcome (WebApp.set_backgroundColor v) web = inr tt
      <-> outcome (MainButton.set_color v) main = inr tt)
     /\ (outcome (WebApp.set_headerColor v) web = inr tt
         <-> outcome (MainButton.set_textColor v) main = inr tt))
  /\ (outcome (WebApp.set_backgroundColor v) web = inr tt ->
      outcome (MainButton.set_color v) main = inr tt)
  /\ (outcome (WebApp.set_headerColor v) web = inr tt ->
      outcome (MainButton.set_textColor v) main = inr tt)
  /\ (exists u,
        ~ Spec.is_string u
        /\ Spec.type_error (outcome (WebApp.set_backgroundColor u) web)
        /\ outcome (MainButton.set_color u) main = inr tt).
Proof.
  split; [| split; [| split]].
  - intros s ->.
    unfold outcome, WebApp.set_backgroundColor, WebApp.set_headerColor,
      MainButton.set_color, MainButton.set_textColor.
    rewrite !(guarded_passes _ _ _ (typeof_string s)).
    change (WebApp.isValidHexColor (VString s))
      with (MainButton.isValidHexColor (VString s)).
    destruct (MainButton.isValidHexColor (VString s)); simpl;
      split; split; auto.
  - intros H.
    destruct (web_set_cases Api.wp_backgroundColor v web)
      as [[(s & -> & Hs) _] | (_ & e & He & _)].
    + destruct (main_set_cases Api.mp_color (VString s) main)
        as [[_ Hm] | [Hn _]].
      * unfold outcome. simpl in Hm. rewrite Hm. reflexivity.
      * contradiction Hn.
    + unfold outcome in H. simpl in He. rewrite He in H. discriminate H.
  - intros H.
    destruct (web_set_cases Api.wp_headerColor v web)
      as [[(s & -> & Hs) _] | (_ & e & He & _)].
    + destruct (main_set_cases Api.mp_textColor (VString s) main)
        as [[_ Hm] | [Hn _]].
      * unfold outcome. simpl in Hm. rewrite Hm. reflexivity.
      * contradiction Hn.
    + unfold outcome in H. simpl in He. rewrite He in H. discriminate H.
  - exists Sample.array_of_white. split; [| split].
    + intros [s Hs]. discriminate Hs.
    + eexists. reflexivity.
    + reflexivity.
Qed.

(** [#1A2B3C] is accepted by [WebApp], hence by [MainButton]. *)
Lemma color_setters_compared_witness :
  outcome (WebApp.set_backgroundColor (VString (js "#1A2B3C")))
          Sample.webApp_instance
  = inr tt
  /\ outcome (MainButton.set_color (VString (js "#1A2B3C")))
             Sample.mainButton_instance
     = inr tt.
Proof.
  split; [reflexivity |].
  exact (proj1 (proj2 (color_setters_compared
                         (VString (js "#1A2B3C")) Sample.webApp_instance
                         Sample.mainButton_instance))
               eq_refl).
Defined.

End ColorSettersCompared.
